(** * Aegis PII leakage detector

    Two parts are embedded here.

    The TypeScript client (API client, auth context, scan tabs, result view,
    report button, registration form) is embedded function by function from
    its sources.  JavaScript strings are modelled as [string] (a sequence of
    code units, [String.length] counting them), [localStorage] as a finite
    map from keys to strings, JSON numbers as rationals, [T | null] as
    [option T].  React state is passed explicitly; the outcome of a network
    call is an argument.

    The detection pipeline of the Python backend is present in the sources
    through its README only; module [Pipeline] follows the specification. *)

From Stdlib Require Import String Ascii List Bool Arith ZArith QArith Qminmax Lia Lqa.
From Stdlib Require Import DecimalString.
From stdpp Require Import gmap strings.
Import ListNotations.

Local Open Scope string_scope.
Local Open Scope list_scope.

(** ** JavaScript truthiness and [||] *)
Module Js.

Definition truthy_str (s : string) : bool := negb (String.eqb s "").

Definition truthy (o : option string) : bool :=
  match o with
  | Some s => truthy_str s
  | None => false
  end.

(** [a || b] on values of type [string | null | undefined]. *)
Definition or_else (a b : option string) : option string :=
  if truthy a then a else b.

(** [a || d] where [d] is a string literal. *)
Definition or_default (a : option string) (d : string) : string :=
  match a with
  | Some s => if truthy_str s then s else d
  | None => d
  end.

End Js.

(** ** lib/api.ts: API URL configuration *)
Module Api.

Definition API_URL_KEY : string := "aegis_api_url".

(** [url.replace(/\/+$/, "")]: the only match of the anchored pattern is the
    maximal run of slashes that ends the string. *)
Fixpoint strip_trailing_slashes (s : string) : string :=
  match s with
  | EmptyString => EmptyString
  | String c rest =>
      match strip_trailing_slashes rest with
      | EmptyString => if Ascii.eqb c "/" then EmptyString else String c EmptyString
      | rest' => String c rest'
      end
  end.

(** A run of [n] slashes, and whether a string ends in one: the vocabulary
    for what the replacement removes. *)
Fixpoint slashes (n : nat) : string :=
  match n with
  | O => ""
  | S k => String "/" (slashes k)
  end.

Fixpoint ends_with_slash (s : string) : bool :=
  match s with
  | EmptyString => false
  | String c EmptyString => Ascii.eqb c "/"
  | String _ rest => ends_with_slash rest
  end.

Section WithEnv.
(** [import.meta.env.VITE_API_URL]: a string, or undefined when unset. *)
Variable DEFAULT_API_URL : option string.

Definition getApiUrl (ls : gmap string string) : option string :=
  Js.or_else (ls !! API_URL_KEY) DEFAULT_API_URL.

Definition setApiUrl (url : string) (ls : gmap string string) : gmap string string :=
  <[API_URL_KEY := strip_trailing_slashes url]> ls.
End WithEnv.

(** The wire types of the client. *)
Record Finding := mkFinding {
  type : string;
  value : string;
  value_masked : string;
  snippet : string;
  confidence : Q;
  risk : string;
  annotation : string;
  file_path : option string;
  source : option string;
  source_url : option string;
  platform : option string;
  content_type : option string
}.

Record ESSSummary := mkESS {
  max_ess : Q;
  avg_ess : Q;
  label : string;
  color : string;
  total_sources : Z;
  all_types : list string
}.

Record ScanResponse := mkScan {
  findings : list Finding;
  ess_summary : option ESSSummary;
  total_sources_scanned : Z;
  scan_duration : Q
}.

(** [Omit<ScanHistoryItem, "id" | "created_at">], the argument of
    [saveScanHistory].  The scan type and the target are declared as strings;
    they arrive undefined from a caller that renders [ScanResults] without
    them, as [CombinedTab] does. *)
Module History.
Record ScanHistoryItem := mkHistory {
  scan_type : option string;
  target : option string;
  findings_count : Z;
  max_ess : Q;
  ess_label : string;
  sources_scanned : Z;
  scan_duration : Q
}.
End History.

(** JSON documents, as [JSON.stringify] writes request bodies. *)
#[warnings="-register-all"]
Inductive Json :=
| JNull
| JNum (q : Q)
| JStr (s : string)
| JArr (items : list Json)
| JObj (fields : list (string * Json)).

Definition keys (j : Json) : list string :=
  match j with
  | JObj fields => map fst fields
  | _ => []
  end.

(** Every string value held anywhere in a document. *)
Fixpoint json_strings (j : Json) : list string :=
  match j with
  | JNull | JNum _ => []
  | JStr s => [s]
  | JArr items => flat_map json_strings items
  | JObj fields => flat_map (fun kv => json_strings (snd kv)) fields
  end.

(** An optional property is written only when it is defined. *)
Definition opt_field (k : string) (o : option string) : list (string * Json) :=
  match o with
  | Some s => [(k, JStr s)]
  | None => []
  end.

Definition opt_key (k : string) (o : option string) : list string :=
  map fst (opt_field k o).

Definition opt_string (o : option string) : list string :=
  match o with
  | Some s => [s]
  | None => []
  end.

Definition finding_json (f : Finding) : Json :=
  JObj ([("type", JStr (type f));
         ("value", JStr (value f));
         ("value_masked", JStr (value_masked f));
         ("snippet", JStr (snippet f));
         ("confidence", JNum (confidence f));
         ("risk", JStr (risk f));
         ("annotation", JStr (annotation f))]
        ++ opt_field "file_path" (file_path f)
        ++ opt_field "source" (source f)
        ++ opt_field "source_url" (source_url f)
        ++ opt_field "platform" (platform f)
        ++ opt_field "content_type" (content_type f)).

Definition history_json (item : History.ScanHistoryItem) : Json :=
  JObj (opt_field "scan_type" (History.scan_type item)
        ++ opt_field "target" (History.target item)
        ++ [("findings_count", JNum (inject_Z (History.findings_count item)));
            ("max_ess", JNum (History.max_ess item));
            ("ess_label", JStr (History.ess_label item));
            ("sources_scanned", JNum (inject_Z (History.sources_scanned item)));
            ("scan_duration", JNum (History.scan_duration item))]).

(** An outgoing POST: [fetch(url + endpoint, { method: "POST", body })]. *)
Record Request := mkRequest {
  endpoint : string;
  body : Json
}.

Definition saveScanHistory (item : History.ScanHistoryItem) : Request :=
  mkRequest "/history/save" (history_json item).

End Api.

(** ** components/ScanResults.tsx: the history auto-save *)
Module ScanResults.
Import Api.

(** The argument built in the mount effect; [x?.f ?? d] falls back to [d]
    when the summary is null. *)
Definition history_item (results : ScanResponse) (scanType target : option string)
  : History.ScanHistoryItem :=
  History.mkHistory scanType target
    (Z.of_nat (length (findings results)))
    (match ess_summary results with Some s => max_ess s | None => 0 end)
    (match ess_summary results with Some s => label s | None => "" end)
    (total_sources_scanned results)
    (scan_duration results).

Definition save_on_mount (results : ScanResponse) (scanType target : option string)
  : Request :=
  saveScanHistory (history_item results scanType target).

End ScanResults.

(** ** components/ReportDownloadButton.tsx *)
Module ReportDownloadButton.
Import Api.

Record Props := mkProps {
  p_findings : list Finding;
  scanType : option string;
  p_target : option string;
  filesScanned : Z;
  apiUrl : string
}.

Definition report_json (p : Props) : Json :=
  JObj ([("findings", JArr (map finding_json (p_findings p)));
         ("ess_results", JArr [])]
        ++ opt_field "scan_type" (scanType p)
        ++ opt_field "target" (p_target p)
        ++ [("files_scanned", JNum (inject_Z (filesScanned p)))]).

(** The request [handleDownload] sends; none when there is no finding. *)
Definition handleDownload (p : Props) : option Request :=
  match p_findings p with
  | [] => None
  | _ :: _ => Some (mkRequest "/report/html" (report_json p))
  end.

(** The props [ScanResults] hands to the button. *)
Definition props_of (results : ScanResponse) (scanType target : option string)
    (apiUrl : string) : Props :=
  mkProps (findings results) scanType target (total_sources_scanned results) apiUrl.

End ReportDownloadButton.

(** ** pages/Register.tsx: the submit handler *)
Module Register.

Record FormState := mkForm {
  fullName : string;
  email : string;
  password : string;
  confirmPassword : string;
  loading : bool;
  error : option string
}.

(** What the handler does to the outside world, in order. *)
Inductive Effect :=
| RegisterCall (email password full_name : string)
| Navigate (path : string).

(** How the awaited [register(...)] settles: it resolves, or it rejects with
    an error whose [message] may be missing. *)
Inductive RegisterOutcome :=
| Resolved
| Rejected (message : option string).

Definition setError (st : FormState) (e : option string) : FormState :=
  mkForm (fullName st) (email st) (password st) (confirmPassword st) (loading st) e.

Definition setLoading (st : FormState) (b : bool) : FormState :=
  mkForm (fullName st) (email st) (password st) (confirmPassword st) b (error st).

Definition handleSubmit (st : FormState) (outcome : RegisterOutcome)
  : FormState * list Effect :=
  if negb (Js.truthy_str (fullName st)) || negb (Js.truthy_str (email st))
     || negb (Js.truthy_str (password st)) || negb (Js.truthy_str (confirmPassword st))
  then (setError st (Some "Please fill in all fields"), [])
  else if Nat.ltb (String.length (password st)) 6
  then (setError st (Some "Password must be at least 6 characters"), [])
  else if negb (String.eqb (password st) (confirmPassword st))
  then (setError st (Some "Passwords do not match"), [])
  else
    let st1 := setError (setLoading st true) None in
    let call := RegisterCall (email st) (password st) (fullName st) in
    match outcome with
    | Resolved => (setLoading st1 false, [call; Navigate "/"])
    | Rejected msg =>
        (setLoading (setError st1 (Some (Js.or_default msg "Registration failed"))) false,
         [call])
    end.

Definition is_register_call (e : Effect) : bool :=
  match e with
  | RegisterCall _ _ _ => true
  | Navigate _ => false
  end.

End Register.

(** ** components/CombinedTab.tsx: merging the GitHub and Pastebin responses *)
Module CombinedTab.
Import Api.

(** [Math.max(a, b)]. *)
Definition qmax (a b : Q) : Q := if Qle_bool a b then b else a.

(** [s?.field || 0] on an optional summary. *)
Definition num_or_zero (field : ESSSummary -> Q) (s : option ESSSummary) : Q :=
  match s with
  | Some x => field x
  | None => 0
  end.

Definition count_or_zero (s : option ESSSummary) : Z :=
  match s with
  | Some x => total_sources x
  | None => 0
  end.

(** [s?.field || d] on an optional summary, for a string field. *)
Definition str_or (field : ESSSummary -> string) (s : option ESSSummary) (d : string) : string :=
  Js.or_default (option_map field s) d.

Definition types_or_empty (s : option ESSSummary) : list string :=
  match s with
  | Some x => all_types x
  | None => []
  end.

(** [[...new Set(xs)]]: first occurrences, in order. *)
Fixpoint dedup (seen xs : list string) : list string :=
  match xs with
  | [] => []
  | x :: rest =>
      if existsb (String.eqb x) seen then dedup seen rest
      else x :: dedup (x :: seen) rest
  end.

Definition merge_summary (gh pb : option ESSSummary) : option ESSSummary :=
  match gh, pb with
  | None, None => None
  | _, _ =>
      let gh_first := Qle_bool (num_or_zero max_ess pb) (num_or_zero max_ess gh) in
      Some (mkESS
        (qmax (num_or_zero max_ess gh) (num_or_zero max_ess pb))
        ((num_or_zero avg_ess gh + num_or_zero avg_ess pb) / 2)
        (if gh_first then str_or label gh "Unknown" else str_or label pb "Unknown")
        (if gh_first then str_or color gh "#888" else str_or color pb "#888")
        (count_or_zero gh + count_or_zero pb)%Z
        (dedup [] (types_or_empty gh ++ types_or_empty pb)))
  end.

(** The [combined] response built by [handleScan] from the two settled
    requests. *)
Definition combine (ghRes pbRes : ScanResponse) : ScanResponse :=
  mkScan
    (findings ghRes ++ findings pbRes)
    (merge_summary (ess_summary ghRes) (ess_summary pbRes))
    (total_sources_scanned ghRes + total_sources_scanned pbRes)%Z
    (qmax (scan_duration ghRes) (scan_duration pbRes)).

(** The response invariant of the external interface. *)
Definition summary_iff_findings (r : ScanResponse) : Prop :=
  ess_summary r = None <-> findings r = [].

(** The scan-level aggregates as the specification defines them, over the
    scores of the sources that have at least one finding. *)
Definition sum_scores (scores : list Q) : Q := fold_right Qplus 0%Q scores.

Definition mean (scores : list Q) : Q :=
  sum_scores scores / inject_Z (Z.of_nat (length scores)).

Definition max_score (scores : list Q) : Q := fold_right qmax 0%Q scores.

(** The average a scan reports, a scan without findings counting as 0. *)
Definition mean_or_zero (scores : list Q) : Q :=
  match scores with
  | [] => 0
  | _ :: _ => mean scores
  end.

Definition describes (scores : list Q) (s : option ESSSummary) : Prop :=
  match s with
  | None => scores = []
  | Some x => scores <> [] /\ max_ess x == max_score scores /\ avg_ess x == mean scores
  end.

End CombinedTab.

(** ** contexts/AuthContext.tsx *)
Module AuthContext.

Definition TOKEN_KEY : string := "aegis_token".
Definition USER_KEY : string := "aegis_user".

Record User := mkUser {
  email : string;
  full_name : string
}.

Record AuthState := mkAuth {
  user : option User;
  token : option string;
  isLoading : bool
}.

Definition setUser (st : AuthState) (u : option User) : AuthState :=
  mkAuth u (token st) (isLoading st).
Definition setToken (st : AuthState) (t : option string) : AuthState :=
  mkAuth (user st) t (isLoading st).
Definition setIsLoading (st : AuthState) (b : bool) : AuthState :=
  mkAuth (user st) (token st) b.

(** [useState] initial values. *)
Definition initial : AuthState := mkAuth None None true.

(** [!!token && !!user]. *)
Definition isAuthenticated (st : AuthState) : bool :=
  Js.truthy (token st) && match user st with Some _ => true | None => false end.

(** What [JSON.parse] does with a stored string: it throws, or it returns a
    value, which the state keeps as [User | null]. *)
Inductive Parsed :=
| SyntaxError
| Value (v : option User).

(** The settled auth request: a non-ok response with an optional [detail],
    or the token and user fields of the body. *)
Inductive AuthResponse :=
| NotOk (detail : option string)
| Ok (access_token user_email user_name : string).

Section WithJSON.
Variable JSON_parse : string -> Parsed.
Variable JSON_stringify : User -> string.

(** The mount effect. *)
Definition restore (st : AuthState) (ls : gmap string string)
  : AuthState * gmap string string :=
  let storedToken := ls !! TOKEN_KEY in
  let storedUser := ls !! USER_KEY in
  let '(st', ls') :=
    match storedToken, storedUser with
    | Some t, Some u =>
        if Js.truthy_str t && Js.truthy_str u then
          let st1 := setToken st (Some t) in
          match JSON_parse u with
          | Value v => (setUser st1 v, ls)
          | SyntaxError => (st1, delete USER_KEY (delete TOKEN_KEY ls))
          end
        else (st, ls)
    | _, _ => (st, ls)
    end in
  (setIsLoading st' false, ls').

(** [login] and [register] differ in the endpoint and the fallback
    message only; the third component is the thrown error, if any. *)
Definition authenticate (fallback : string) (res : AuthResponse)
    (st : AuthState) (ls : gmap string string)
  : AuthState * gmap string string * option string :=
  match res with
  | NotOk detail => (st, ls, Some (Js.or_default detail fallback))
  | Ok access_token user_email user_name =>
      let userObj := mkUser user_email user_name in
      let ls1 := <[TOKEN_KEY := access_token]> ls in
      let ls2 := <[USER_KEY := JSON_stringify userObj]> ls1 in
      (setUser (setToken st (Some access_token)) (Some userObj), ls2, None)
  end.

Definition login := authenticate "Login failed".
Definition register := authenticate "Registration failed".

Definition logout (st : AuthState) (ls : gmap string string)
  : AuthState * gmap string string :=
  (setUser (setToken st None) None, delete USER_KEY (delete TOKEN_KEY ls)).
End WithJSON.

End AuthContext.

(** ** The detection pipeline of the backend

    The Python modules (detection/validators.py, presidio_engine.py,
    transformer_filter.py) are described by the specification and the
    backend README only; this module follows those descriptions. *)
Module Pipeline.

(** Modelled from the spec: the enumerated entity types of the recognizer
    (section 4.1); the recognizer module is not part of the sources. *)
Inductive EntityType :=
| Aadhaar | PAN | GSTIN | ABHA | Phone | UPI | Card | Passport | Email | PersonName.

(** Modelled from the spec: the risk tiers of a Finding (section 3). *)
Inductive Risk := Critical | High | Medium | Low.

(** Modelled from the spec: source metadata of the core input (section 6). *)
Record SourceRef := mkSource {
  source_id : string;
  src_url : string;
  src_platform : string;
  visibility : string
}.

(** Modelled from the spec: the Candidate of section 3. *)
Record Candidate := mkCandidate {
  c_type : EntityType;
  raw_span : string;
  raw_value : string;
  start_offset : nat;
  end_offset : nat;
  source_ref : SourceRef;
  raw_confidence : Q
}.

(** Modelled from the spec: the Finding of section 3, which has no field for
    the raw value. *)
Record Finding := mkFinding {
  type : EntityType;
  value_masked : string;
  snippet : string;
  confidence : Q;
  risk : Risk;
  annotation : string;
  source : string;
  source_url : string;
  platform : string
}.

(** Modelled from the spec: the verdict of a validator (section 3). *)
Record ValidationVerdict := mkVerdict {
  valid : bool;
  reason : string
}.

(** Modelled from the spec: the verdict of the classifier (section 3). *)
Record DisambiguationVerdict := mkDisambiguation {
  is_synthetic : bool;
  probability : Q
}.

(** *** Digits of a raw value *)

(** Modelled from the spec: the value of a decimal digit character, for the
    validators that read digit sequences. *)
Definition digit_of_ascii (c : ascii) : option nat :=
  let n := nat_of_ascii c in
  if Nat.leb 48 n && Nat.leb n 57 then Some (n - 48) else None.

(** Modelled from the spec: a raw value as a digit sequence, when it is
    one. *)
Fixpoint digits_of (s : string) : option (list nat) :=
  match s with
  | EmptyString => Some []
  | String c rest =>
      match digit_of_ascii c, digits_of rest with
      | Some x, Some xs => Some (x :: xs)
      | _, _ => None
      end
  end.

(** *** Verhoeff (Aadhaar) *)

(** Modelled from the spec: the fixed 10x10 multiplication table of the
    dihedral group D5 used by validators.py, which is not part of the
    sources; these are the tables of Verhoeff's scheme. *)
Definition d_table : list (list nat) :=
  [ [0;1;2;3;4;5;6;7;8;9];
    [1;2;3;4;0;6;7;8;9;5];
    [2;3;4;0;1;7;8;9;5;6];
    [3;4;0;1;2;8;9;5;6;7];
    [4;0;1;2;3;9;5;6;7;8];
    [5;9;8;7;6;0;4;3;2;1];
    [6;5;9;8;7;1;0;4;3;2];
    [7;6;5;9;8;2;1;0;4;3];
    [8;7;6;5;9;3;2;1;0;4];
    [9;8;7;6;5;4;3;2;1;0] ].

(** Modelled from the spec: the 8-row permutation table of validators.py. *)
Definition p_table : list (list nat) :=
  [ [0;1;2;3;4;5;6;7;8;9];
    [1;5;7;6;2;8;3;0;9;4];
    [5;8;0;3;7;9;6;1;4;2];
    [8;9;1;6;0;4;3;5;2;7];
    [9;4;5;3;1;2;6;8;7;0];
    [4;2;8;6;5;7;3;9;0;1];
    [2;7;9;3;8;0;6;4;1;5];
    [7;0;4;6;9;1;3;2;5;8] ].

(** Modelled from the spec: the inverse table of validators.py (used to
    produce a check digit, not to validate one). *)
Definition inv_table : list nat := [0;4;3;2;1;5;6;7;8;9].

(** Modelled from the spec: table lookups [d[a][b]] and [p[row][x]]. *)
Definition d (a b : nat) : nat := nth b (nth a d_table []) 0.
Definition p (row x : nat) : nat := nth x (nth row p_table []) 0.

(** Modelled from the spec: one pass over the digits, the digit at position
    [i] (counted from the right, from 0) going through permutation row
    [i mod 8] and into the accumulator by table multiplication. *)
Fixpoint verhoeff_loop (i c : nat) (ds : list nat) : nat :=
  match ds with
  | [] => c
  | x :: rest => verhoeff_loop (S i) (d c (p (i mod 8) x)) rest
  end.

(** Modelled from the spec: the final accumulator, digits taken
    right-to-left, starting from 0. *)
Definition verhoeff_accumulator (ds : list nat) : nat :=
  verhoeff_loop 0 0 (rev ds).

(** Modelled from the spec: the Aadhaar validator of validators.py: a
    12-digit sequence is valid iff the final accumulator is 0; any length
    mismatch is invalid. *)
Definition validate_aadhaar (raw : string) : bool :=
  match digits_of raw with
  | Some ds => Nat.eqb (length ds) 12 && Nat.eqb (verhoeff_accumulator ds) 0
  | None => false
  end.

(** *** Luhn (card numbers) *)

(** Modelled from the spec: double every second digit from the rightmost,
    subtract 9 if the doubled value exceeds 9, sum all digits. *)
Fixpoint luhn_sum (second : bool) (ds : list nat) : nat :=
  match ds with
  | [] => 0
  | x :: rest =>
      (if second then (if Nat.ltb 9 (2 * x) then 2 * x - 9 else 2 * x) else x)
      + luhn_sum (negb second) rest
  end.

(** Modelled from the spec: the Luhn validator of validators.py: valid iff
    the sum is 0 modulo 10. *)
Definition validate_card (raw : string) : bool :=
  match digits_of raw with
  | Some ds => Nat.eqb (luhn_sum false (rev ds) mod 10) 0
  | None => false
  end.

(** *** PAN and GSTIN *)

(** Modelled from the spec: the character classes of the structural
    checks. *)
Definition is_alpha (c : ascii) : bool :=
  let n := nat_of_ascii c in
  (Nat.leb 65 n && Nat.leb n 90) || (Nat.leb 97 n && Nat.leb n 122).

Definition is_digit (c : ascii) : bool :=
  match digit_of_ascii c with Some _ => true | None => false end.

(** *** Masking *)

(** Modelled from the spec: masking of a raw value, which keeps the first 2
    and the last 2 characters (section 3) and nothing of a value too short
    to have a middle; the masking helper is not part of the sources. *)
Definition mask_chars (cs : list ascii) : list ascii :=
  let n := length cs in
  if Nat.leb n 4 then repeat "*"%char n
  else firstn 2 cs ++ repeat "*"%char (n - 4) ++ skipn (n - 2) cs.

(** Modelled from the spec: [value_masked] of a raw value. *)
Definition mask_value (raw : string) : string :=
  string_of_list_ascii (mask_chars (list_ascii_of_string raw)).

Section Validators.
(** The lookups and per-type settings that the specification names but
    does not list. *)
Variable PAN_ENTITY_CHARS : list ascii.
Variable STATE_CODES : list string.
Variable gstin_tail_ok : string -> bool.
Variable format_ok : EntityType -> string -> bool.
Variable validator_floor : EntityType -> Q.

(** Modelled from the spec: PAN structural validation of validators.py:
    exactly 10 characters, 1-5 alphabetic with the 4th in the entity-type
    set, 6-9 numeric, the 10th alphabetic. *)
Definition validate_pan (raw : string) : bool :=
  match list_ascii_of_string raw with
  | [c1; c2; c3; c4; c5; c6; c7; c8; c9; c10] =>
      is_alpha c1 && is_alpha c2 && is_alpha c3 && is_alpha c4 && is_alpha c5
      && existsb (Ascii.eqb c4) PAN_ENTITY_CHARS
      && is_digit c6 && is_digit c7 && is_digit c8 && is_digit c9
      && is_alpha c10
  | _ => false
  end.

(** Modelled from the spec: GSTIN validation of validators.py: 15
    characters, a state code from the lookup, an embedded PAN in
    characters 3-12, the remainder format-validated. *)
Definition validate_gstin (raw : string) : bool :=
  Nat.eqb (String.length raw) 15
  && existsb (String.eqb (substring 0 2 raw)) STATE_CODES
  && validate_pan (substring 2 10 raw)
  && gstin_tail_ok (substring 12 3 raw).

(** Modelled from the spec: the Checksum Validator contract
    [(Candidate) -> ValidationVerdict] of section 4.2. *)
Definition validate (c : Candidate) : ValidationVerdict :=
  let ok :=
    match c_type c with
    | Aadhaar => validate_aadhaar (raw_value c)
    | Card => validate_card (raw_value c)
    | PAN => validate_pan (raw_value c)
    | GSTIN => validate_gstin (raw_value c)
    | t => format_ok t (raw_value c)
    end in
  mkVerdict ok (if ok then "valid" else "failed validation").

(** The risk level of each type, from the table of supported PII types in
    backend/README.md. *)
Definition risk_of_type (t : EntityType) : Risk :=
  match t with
  | Aadhaar | Card => Critical
  | PAN | GSTIN | ABHA | Passport => High
  | UPI | Phone => Medium
  | Email | PersonName => Low
  end.

(** Modelled from the spec: promotion of a validated Candidate, with
    confidence [max(raw_confidence, validator_floor)] (section 4.2). *)
Definition promote (c : Candidate) : Finding :=
  mkFinding (c_type c) (mask_value (raw_value c)) (raw_span c)
    (CombinedTab.qmax (raw_confidence c) (validator_floor (c_type c)))
    (risk_of_type (c_type c)) ""
    (source_id (source_ref c)) (src_url (source_ref c)) (src_platform (source_ref c)).

(** Modelled from the spec: the validation stage of the orchestrator: each
    candidate is promoted or discarded by its verdict. *)
Fixpoint validation_stage (cands : list Candidate) : list Finding :=
  match cands with
  | [] => []
  | c :: rest =>
      if valid (validate c) then promote c :: validation_stage rest
      else validation_stage rest
  end.
End Validators.

(** *** Disambiguation *)

(** Modelled from the spec: demotion by one tier (section 4.3); there is no
    tier below Low. *)
Definition demote (r : Risk) : Risk :=
  match r with
  | Critical => High
  | High => Medium
  | Medium => Low
  | Low => Low
  end.

(** Modelled from the spec: the rank of a tier, Critical > High > Medium >
    Low. *)
Definition tier (r : Risk) : nat :=
  match r with
  | Critical => 3
  | High => 2
  | Medium => 1
  | Low => 0
  end.

Section Disambiguation.
(** The cross-encoder, the fixed threshold and the note written on a
    demoted finding. *)
Variable classify : Finding -> string -> DisambiguationVerdict.
Variable threshold : Q.
Variable synthetic_note : string.

(** Modelled from the spec: [is_synthetic] with a probability above the
    threshold. *)
Definition above_threshold (v : DisambiguationVerdict) : bool :=
  is_synthetic v && negb (Qle_bool (probability v) threshold).

(** Modelled from the spec: the Disambiguation Filter of
    transformer_filter.py applied to one Finding and its snippet. *)
Definition disambiguate (f : Finding) : Finding :=
  let v := classify f (snippet f) in
  if above_threshold v then
    mkFinding (type f) (value_masked f) (snippet f)
      (confidence f * (1 - probability v))
      (demote (risk f)) synthetic_note
      (source f) (source_url f) (platform f)
  else f.

(** Modelled from the spec: the optional stage, toggled per scan request
    ([use_nlp] in the client). *)
Definition disambiguation_stage (use_nlp : bool) (fs : list Finding) : list Finding :=
  if use_nlp then map disambiguate fs else fs.
End Disambiguation.

(** *** One source through the stages *)

Section Orchestrator.
Variable PAN_ENTITY_CHARS : list ascii.
Variable STATE_CODES : list string.
Variable gstin_tail_ok : string -> bool.
Variable format_ok : EntityType -> string -> bool.
Variable validator_floor : EntityType -> Q.
Variable classify : Finding -> string -> DisambiguationVerdict.
Variable threshold : Q.
Variable synthetic_note : string.
(** The Exposure Scorer applied to the findings of one source. *)
Variable score_source : list Finding -> Q.

(** Modelled from the spec: the forward data flow of section 2 for the
    candidates of one source: validation, the optional disambiguation,
    then scoring; the orchestrator is not part of the sources. *)
Definition source_findings (use_nlp : bool) (cands : list Candidate) : list Finding :=
  disambiguation_stage classify threshold synthetic_note use_nlp
    (validation_stage PAN_ENTITY_CHARS STATE_CODES gstin_tail_ok format_ok
       validator_floor cands).

(** Modelled from the spec: the findings of a source together with its
    score. *)
Definition scan_source (use_nlp : bool) (cands : list Candidate) : list Finding * Q :=
  let fs := source_findings use_nlp cands in
  (fs, score_source fs).
End Orchestrator.

End Pipeline.

(** ** lib/api.ts: the request helpers *)
Module ApiClient.
Import Api.

Definition getToken (ls : gmap string string) : option string := ls !! "aegis_token".

(** A value inside a template literal: [undefined] prints as such. *)
Definition template (o : option string) : string :=
  match o with
  | Some s => s
  | None => "undefined"
  end.

(** A number inside a template literal. *)
Definition decimal (n : nat) : string := NilEmpty.string_of_uint (Nat.to_uint n).

Inductive Method := GET | POST | PUT | DELETE.

(** What [fetch] is called with, the body apart. *)
Record Call := mkCall {
  method : Method;
  url : string;
  headers : list (string * string)
}.

(** [if (token) headers["Authorization"] = `Bearer ${token}`]. *)
Definition bearer (ls : gmap string string) : list (string * string) :=
  match getToken ls with
  | Some t => if Js.truthy_str t then [("Authorization", "Bearer " +:+ t)] else []
  | None => []
  end.

Section WithEnv.
Variable DEFAULT_API_URL : option string.

Definition request_url (ls : gmap string string) (endpoint : string) : string :=
  template (getApiUrl DEFAULT_API_URL ls) +:+ endpoint.

Definition post_call (ls : gmap string string) (endpoint : string) : Call :=
  mkCall POST (request_url ls endpoint)
    (("Content-Type", "application/json") :: bearer ls).

Definition get_call (ls : gmap string string) (endpoint : string) : Call :=
  mkCall GET (request_url ls endpoint) (bearer ls).

Definition del_call (ls : gmap string string) (endpoint : string) : Call :=
  mkCall DELETE (request_url ls endpoint) (bearer ls).

(** [saveProfile] builds its own PUT. *)
Definition saveProfile_call (ls : gmap string string) : Call :=
  mkCall PUT (request_url ls "/profile")
    (("Content-Type", "application/json") :: bearer ls).
End WithEnv.

(** The [detail] of an error body is any JSON value.  The helpers look at
    it twice: [err.detail || ...] asks whether it is truthy, and
    [new Error(...)] turns it into the message.  A string is its own
    message; of any other value the model keeps those two observations (an
    empty array is truthy with the empty message, an object is truthy with
    "[object Object]", [0], [false] and [null] are falsy). *)
Inductive DetailValue :=
| DetailString (s : string)
| DetailOther (is_truthy : bool) (as_message : string).

(** The body does not parse as JSON, or it does and [detail] is a value or
    is missing. *)
Inductive BodyDetail :=
| Unparsable
| Detail (d : option DetailValue).

Record Response := mkResponse {
  status : nat;
  statusText : string;
  detail : BodyDetail
}.

(** [res.ok]: a status in the range 200-299. *)
Definition ok (r : Response) : bool := Nat.leb 200 (status r) && Nat.leb (status r) 299.

(** [const err = await res.json().catch(() => ({ detail: res.statusText }))]
    followed by [err.detail]. *)
Definition err_detail (r : Response) : option DetailValue :=
  match detail r with
  | Unparsable => Some (DetailString (statusText r))
  | Detail d => d
  end.

(** [new Error(detail || fallback).message]. *)
Definition detail_or (d : option DetailValue) (fallback : string) : string :=
  match d with
  | Some (DetailString s) => if Js.truthy_str s then s else fallback
  | Some (DetailOther true m) => m
  | Some (DetailOther false _) => fallback
  | None => fallback
  end.

Definition SESSION_EXPIRED : string := "Session expired. Please log in again.".

(** The message of the error thrown on a response that is not ok; [post]
    and [get] check for 401 first, [del] and [saveProfile] do not. *)
Definition error_message (session_check : bool) (r : Response) : string :=
  if session_check && Nat.eqb (status r) 401 then SESSION_EXPIRED
  else detail_or (err_detail r) ("API error " +:+ decimal (status r)).

(** How an awaited call settles. *)
Inductive Settled (T : Type) :=
| Fulfilled (v : T)
| RejectedWith (message : string).
Arguments Fulfilled {T} v.
Arguments RejectedWith {T} message.

(** The helpers after [fetch] has answered with [r]; [parsed] is what
    [res.json()] gives for an ok response. *)
Definition settle {T : Type} (session_check : bool) (r : Response) (parsed : T) : Settled T :=
  if ok r then Fulfilled parsed else RejectedWith (error_message session_check r).

Definition post {T : Type} := @settle T true.





End ApiClient.

(** ** components/ProtectedRoute.tsx *)
Module ProtectedRoute.
Import AuthContext.

Inductive Rendered :=
| Spinner
| NavigateToLogin
| Children.

Definition ProtectedRoute (st : AuthState) : Rendered :=
  if isLoading st then Spinner
  else if negb (isAuthenticated st) then NavigateToLogin
  else Children.

End ProtectedRoute.

(** ** components/ESSGauge.tsx *)
Module ESSGauge.
Import Api.

Definition getEssColor (score : Q) : string :=
  if Qle_bool 8 score then "hsl(var(--risk-critical))"
  else if Qle_bool 6 score then "hsl(var(--risk-high))"
  else if Qle_bool 4 score then "hsl(var(--risk-medium))"
  else "hsl(var(--risk-low))".

(** The width of the bar, in percent. *)
Definition pct (summary : ESSSummary) : Q := (max_ess summary / 10) * 100.

End ESSGauge.

(** ** The scan tabs: what [handleScan] does to a tab's state *)
Module Tabs.
Import Api ApiClient.

(** The state every tab keeps about its scan. *)
Record ScanState := mkScanState {
  scanning : bool;
  results : option ScanResponse;
  error : option string
}.

(** [try { setResults(await call) } catch (e) { setError(e.message) }
    finally { setScanning(false) }], after the three resets. *)
Definition finish (call : Settled ScanResponse) : ScanState :=
  match call with
  | Fulfilled res => mkScanState false (Some res) None
  | RejectedWith m => mkScanState false None (Some m)
  end.

(** [Promise.all] of the two scans: both values, or the reason of the call
    that rejected first ([gh_rejects_first] when both do). *)
Definition all2 (gh pb : Settled ScanResponse) (gh_rejects_first : bool)
  : Settled (ScanResponse * ScanResponse) :=
  match gh, pb with
  | Fulfilled g, Fulfilled p => Fulfilled (g, p)
  | RejectedWith m, Fulfilled _ => RejectedWith m
  | Fulfilled _, RejectedWith m => RejectedWith m
  | RejectedWith m1, RejectedWith m2 => RejectedWith (if gh_rejects_first then m1 else m2)
  end.

(** [CombinedTab.handleScan]. *)
Definition combined_handleScan (gh pb : Settled ScanResponse) (gh_rejects_first : bool)
  : ScanState :=
  match all2 gh pb gh_rejects_first with
  | Fulfilled (g, p) => finish (Fulfilled (CombinedTab.combine g p))
  | RejectedWith m => finish (RejectedWith m)
  end.

(** [GithubTab]: its inputs, the call it makes and its button. *)
Inductive Mode := single | user.

Record GithubInputs := mkGithubInputs {
  mode : Mode;
  repo : string;
  branch : string;
  username : string;
  maxFiles : Z;
  maxRepos : Z;
  useNlp : bool
}.

Inductive ScanCall :=
| GithubSingle (repo branch : string) (max_files : Z) (use_nlp : bool)
| GithubUser (username : string) (max_repos max_files_per_repo : Z) (use_nlp : bool).

Definition endpoint_of (c : ScanCall) : string :=
  match c with
  | GithubSingle _ _ _ _ => "/scan/github/single"
  | GithubUser _ _ _ _ => "/scan/github/user"
  end.

Definition github_call (i : GithubInputs) : ScanCall :=
  match mode i with
  | single => GithubSingle (repo i) (branch i) (maxFiles i) (useNlp i)
  | user => GithubUser (username i) (maxRepos i) (maxFiles i) (useNlp i)
  end.

(** [disabled={scanning || (mode === "single" ? !repo : !username)}]. *)
Definition github_disabled (i : GithubInputs) (st : ScanState) : bool :=
  scanning st
  || match mode i with
     | single => negb (Js.truthy_str (repo i))
     | user => negb (Js.truthy_str (username i))
     end.

(** A click on "Scan GitHub": nothing on a disabled button, else the call
    and the state once it has settled as [answer]. *)
Definition github_click (i : GithubInputs) (st : ScanState) (answer : Settled ScanResponse)
  : ScanState * list ScanCall :=
  if github_disabled i st then (st, [])
  else (finish answer, [github_call i]).

(** [target={mode === "single" ? repo : `user:${username}`}]. *)
Definition github_target (i : GithubInputs) : string :=
  match mode i with
  | single => repo i
  | user => "user:" +:+ username i
  end.

End Tabs.

(** ** components/ReportDownloadButton.tsx: the download after the request *)
Module ReportDownload.
Import Api ReportDownloadButton.

Definition is_alnum (c : ascii) : bool :=
  let n := nat_of_ascii c in
  (Nat.leb 48 n && Nat.leb n 57) || (Nat.leb 65 n && Nat.leb n 90)
  || (Nat.leb 97 n && Nat.leb n 122).

(** Whether every character of a string passes a test. *)
Fixpoint all_chars (ok : ascii -> bool) (s : string) : bool :=
  match s with
  | EmptyString => true
  | String c rest => ok c && all_chars ok rest
  end.

(** [target.replace(/[^a-zA-Z0-9]/g, "_")]. *)
Fixpoint sanitize (s : string) : string :=
  match s with
  | EmptyString => EmptyString
  | String c rest => String (if is_alnum c then c else "_"%char) (sanitize rest)
  end.

Definition file_name (target : string) (scanType : option string) : string :=
  "aegis_report_" +:+ sanitize target +:+ "_" +:+ ApiClient.template scanType +:+ ".html".

(** How the report request ends: [fetch] or [response.text()] rejects, the
    response is not ok, or the HTML arrives. *)
Inductive ReportAnswer :=
| NetworkError
| NotOk
| Html (html : string).

Inductive Outcome :=
| NotStarted
| Alerted (req : Request)
| Saved (req : Request) (download : string) (html : string).

(** [handleDownload] to its end: every throw inside the [try], among them
    [target.replace] on an undefined target, ends in the alert. *)
Definition download (p : Props) (answer : ReportAnswer) : Outcome :=
  match handleDownload p with
  | None => NotStarted
  | Some req =>
      match answer, p_target p with
      | Html html, Some t => Saved req (file_name t (scanType p)) html
      | _, _ => Alerted req
      end
  end.

End ReportDownload.

(** ** pages/History.tsx and pages/Dashboard.tsx *)
Module HistoryPages.

(** A stored [ScanHistoryItem]. *)
Record ScanHistoryItem := mkItem {
  id : Z;
  scan_type : string;
  target : string;
  findings_count : Z;
  max_ess : Q;
  ess_label : string;
  sources_scanned : Z;
  scan_duration : Q;
  created_at : option string
}.

Record PageState := mkPage {
  records : list ScanHistoryItem;
  loading : bool;
  deleting : option Z
}.

(** [prev.filter((r) => r.id !== id)]. *)
Definition without (i : Z) (rs : list ScanHistoryItem) : list ScanHistoryItem :=
  List.filter (fun r => negb (Z.eqb (id r) i)) rs.

(** [handleDelete]; [deleted] tells whether [deleteScanHistory] resolved. *)
Definition handleDelete (i : Z) (deleted : bool) (st : PageState) : PageState :=
  let st1 := mkPage (records st) (loading st) (Some i) in
  let st2 := if deleted then mkPage (without i (records st1)) (loading st1) (deleting st1)
             else st1 in
  mkPage (records st2) (loading st2) None.

(** [Math.max(...xs)] on a non-empty list. *)
Definition math_max (x : Q) (xs : list Q) : Q := fold_left CombinedTab.qmax xs x.

(** The dashboard's figures. *)
Definition totalFindings (history : list ScanHistoryItem) : Z :=
  fold_left (fun s h => (s + findings_count h)%Z) history 0%Z.

Definition highestEss (history : list ScanHistoryItem) : Q :=
  match List.map max_ess history with
  | [] => 0
  | x :: xs => math_max x xs
  end.

Definition recentScans (history : list ScanHistoryItem) : list ScanHistoryItem :=
  firstn 5 history.

End HistoryPages.

(** ** pages/Profile.tsx: the profile map *)
Module Profile.

Record ProfileEntry := mkEntry {
  kind : string;
  label : string;
  value : string
}.

Inductive Field := f_kind | f_label | f_value.

(** [e[field]]. *)
Definition get_field (e : ProfileEntry) (field : Field) : string :=
  match field with
  | f_kind => kind e
  | f_label => label e
  | f_value => value e
  end.

(** [{ ...e, [field]: val }]. *)
Definition set_field (e : ProfileEntry) (field : Field) (val : string) : ProfileEntry :=
  match field with
  | f_kind => mkEntry val (label e) (value e)
  | f_label => mkEntry (kind e) val (value e)
  | f_value => mkEntry (kind e) (label e) val
  end.

(** [xs.filter((x, i) => keep(i))] and [xs.map((x, i) => f(x, i))], the
    index counted from [i]. *)
Fixpoint filter_index {A : Type} (keep : nat -> bool) (i : nat) (xs : list A) : list A :=
  match xs with
  | [] => []
  | x :: rest =>
      if keep i then x :: filter_index keep (S i) rest
      else filter_index keep (S i) rest
  end.

Fixpoint map_index {A B : Type} (f : A -> nat -> B) (i : nat) (xs : list A) : list B :=
  match xs with
  | [] => []
  | x :: rest => f x i :: map_index f (S i) rest
  end.

Definition addEntry (prev : list ProfileEntry) : list ProfileEntry :=
  prev ++ [mkEntry "github" "" ""].

Definition removeEntry (idx : nat) (prev : list ProfileEntry) : list ProfileEntry :=
  filter_index (fun i => negb (Nat.eqb i idx)) 0 prev.

Definition updateEntry (idx : nat) (field : Field) (val : string)
    (prev : list ProfileEntry) : list ProfileEntry :=
  map_index (fun e i => if Nat.eqb i idx then set_field e field val else e) 0 prev.

(** The profile as [saveProfile] receives it: [notes || undefined]. *)
Record UserProfile := mkProfile {
  entries : list ProfileEntry;
  notes : option string
}.

Definition profile_of (es : list ProfileEntry) (notes : string) : UserProfile :=
  mkProfile es (Js.or_else (Some notes) None).

Inductive Toast :=
| NoEntries
| ScanComplete (description : string)
| ScanFailed (description : string).

Inductive Sent :=
| PutProfile (p : UserProfile)
| PostProfileScan.

Record ScanPart := mkScanPart {
  scanning : bool;
  showFindings : bool;
  lastScanFindings : option Z
}.

(** [handleScan]: [saved] is how [saveProfile] settles, [scanned] how
    [scanProfile] does, with the [total_findings] of its result. *)
Definition handleScan (es : list ProfileEntry) (notes : string)
    (saved : ApiClient.Settled unit) (scanned : ApiClient.Settled nat) (st : ScanPart)
  : ScanPart * list Sent * Toast :=
  match es with
  | [] => (st, [], NoEntries)
  | _ :: _ =>
      let put := PutProfile (profile_of es notes) in
      match saved with
      | ApiClient.RejectedWith m =>
          (mkScanPart false (showFindings st) (lastScanFindings st), [put], ScanFailed m)
      | ApiClient.Fulfilled _ =>
          match scanned with
          | ApiClient.RejectedWith m =>
              (mkScanPart false (showFindings st) (lastScanFindings st),
               [put; PostProfileScan], ScanFailed m)
          | ApiClient.Fulfilled n =>
              (mkScanPart false true (Some (Z.of_nat n)), [put; PostProfileScan],
               ScanComplete (ApiClient.decimal n +:+ " finding(s) found."))
          end
      end
  end.

End Profile.

(** ** Register.tsx with AuthContext.tsx: a submit and the request behind it *)
Module RegisterFlow.
Import Register.

Definition outcome_of (thrown : option string) : RegisterOutcome :=
  match thrown with
  | None => Resolved
  | Some m => Rejected (Some m)
  end.

Section WithJSON.
Variable JSON_stringify : AuthContext.User -> string.

(** [handleSubmit] awaiting the context's [register], which the server
    answers with [res]; the context and the storage change only when the
    handler gets as far as the call. *)
Definition submit (form : FormState) (res : AuthContext.AuthResponse)
    (auth : AuthContext.AuthState) (ls : gmap string string)
  : FormState * list Effect * AuthContext.AuthState * gmap string string :=
  let '(auth', ls', thrown) := AuthContext.register JSON_stringify res auth ls in
  let '(form', effects) := handleSubmit form (outcome_of thrown) in
  if existsb is_register_call effects then (form', effects, auth', ls')
  else (form', effects, auth, ls).
End WithJSON.

End RegisterFlow.

(** ** Exhaustive checks over an initial segment of the naturals *)
Definition all_below (n : nat) (f : nat -> bool) : bool := forallb f (seq 0 n).

(** ** Sample data *)
Module Examples.
Import Api.

Definition aadhaar_finding : Finding :=
  Api.mkFinding "AADHAAR" "234123412346" "23********46" "uid = 234123412346"
    (95 # 100) "Critical" "" (Some "config/seed.py") (Some "config/seed.py")
    (Some "https://github.com/acme/shop/blob/main/config/seed.py") (Some "github") None.

Definition email_finding : Finding :=
  Api.mkFinding "EMAIL_ADDRESS" "ops@acme.example" "op************le" "mail ops@acme.example"
    (80 # 100) "Low" "" None (Some "paste/Ab12Cd34")
    (Some "https://pastebin.com/Ab12Cd34") (Some "pastebin") None.

Definition phone_finding : Finding :=
  Api.mkFinding "IN_PHONE" "+919812345670" "+9*********70" "call +919812345670"
    (70 # 100) "Medium" "" (Some "docs/contacts.md") (Some "docs/contacts.md")
    (Some "https://github.com/acme/shop/blob/main/docs/contacts.md") (Some "github") None.

(** A GitHub response over two sources with findings, scoring 9 and 3. *)
Definition gh_example : ScanResponse :=
  mkScan [aadhaar_finding; phone_finding]
    (Some (mkESS 9 6 "CRITICAL" "#ff0000" 2 ["AADHAAR"; "IN_PHONE"])) 40 (3 # 2).

(** A Pastebin response over one source with findings, scoring 3. *)
Definition pb_example : ScanResponse :=
  mkScan [email_finding] (Some (mkESS 3 3 "LOW" "#00ff00" 1 ["EMAIL_ADDRESS"])) 10 (5 # 2).

Definition clean_example : ScanResponse := mkScan [] None 10 (1 # 2).

Definition aadhaar_candidate : Pipeline.Candidate :=
  Pipeline.mkCandidate Pipeline.Aadhaar "uid = 234123412346" "234123412346" 6 18
    (Pipeline.mkSource "config/seed.py"
       "https://github.com/acme/shop/blob/main/config/seed.py" "github" "public")
    (9 # 10).

(** An Aadhaar-shaped candidate whose check digit is wrong. *)
Definition bad_aadhaar_candidate : Pipeline.Candidate :=
  Pipeline.mkCandidate Pipeline.Aadhaar "uid = 234123412345" "234123412345" 6 18
    (Pipeline.mkSource "config/seed.py"
       "https://github.com/acme/shop/blob/main/config/seed.py" "github" "public")
    (9 # 10).

Definition card_finding : Pipeline.Finding :=
  Pipeline.mkFinding Pipeline.Card "41************11" "test card: 4111111111111111"
    (9 # 10) Pipeline.Critical "" "fixtures/pay.json"
    "https://github.com/acme/shop/blob/main/fixtures/pay.json" "github".

(** An e-mail finding, Low by its type, in a context that says test data. *)
Definition test_email_finding : Pipeline.Finding :=
  Pipeline.mkFinding Pipeline.Email "qa***********le" "test account: qa@acme.example"
    (8 # 10) Pipeline.Low "" "docs/setup.md"
    "https://github.com/acme/shop/blob/main/docs/setup.md" "github".

Definition test_account_classifier (f : Pipeline.Finding) (context : string)
  : Pipeline.DisambiguationVerdict :=
  if String.eqb context "test account: qa@acme.example"
  then Pipeline.mkDisambiguation true (8 # 10)
  else Pipeline.mkDisambiguation false (1 # 10).

(** A stand-in for the cross-encoder that calls one snippet synthetic. *)
Definition test_card_classifier (f : Pipeline.Finding) (context : string)
  : Pipeline.DisambiguationVerdict :=
  if String.eqb context "test card: 4111111111111111"
  then Pipeline.mkDisambiguation true (9 # 10)
  else Pipeline.mkDisambiguation false (1 # 10).

End Examples.

(** * Properties *)

(** ** Truthiness *)
Module JsFacts.
Import Js.

Lemma truthy_str_false (s : string) : truthy_str s = false <-> s = "".
Proof.
  unfold truthy_str. destruct s as [|c s]; simpl; split; congruence.
Qed.

Lemma truthy_str_true (s : string) : truthy_str s = true <-> s <> "".
Proof.
  unfold truthy_str. destruct s as [|c s]; simpl; split; congruence.
Qed.

End JsFacts.

(** ** The API URL setting *)
Module ApiUrlFacts.
Import Api.

Lemma strip_idempotent (s : string) :
  strip_trailing_slashes (strip_trailing_slashes s) = strip_trailing_slashes s.
Proof.
  induction s as [|c rest IH]; simpl; [reflexivity|].
  destruct (strip_trailing_slashes rest) as [|c' r'] eqn:E.
  - destruct (Ascii.eqb c "/") eqn:Ec; simpl; [reflexivity|]. now rewrite Ec.
  - simpl. simpl in IH. now rewrite IH.
Qed.

Lemma strip_decompose (s : string) :
  exists n, s = (strip_trailing_slashes s ++ slashes n)%string.
Proof.
  induction s as [|c rest [n IH]]; simpl.
  - now exists 0.
  - destruct (strip_trailing_slashes rest) as [|c' r'] eqn:E;
      simpl in IH.
    + destruct (Ascii.eqb c "/") eqn:Ec.
      * apply Ascii.eqb_eq in Ec. subst c. exists (S n). rewrite IH at 1. reflexivity.
      * exists n. rewrite IH at 1. reflexivity.
    + exists n. rewrite IH at 1. reflexivity.
Qed.

Lemma strip_no_trailing_slash (s : string) :
  ends_with_slash (strip_trailing_slashes s) = false.
Proof.
  induction s as [|c rest IH]; simpl; [reflexivity|].
  destruct (strip_trailing_slashes rest) as [|c' r'] eqn:E.
  - destruct (Ascii.eqb c "/") eqn:Ec; simpl; [reflexivity|exact Ec].
  - exact IH.
Qed.

(** C9, as stated, fails: a URL made of slashes only is stored as the empty
    string, which [getApiUrl] treats as unset and replaces by the default. *)
Lemma setApiUrl_only_slashes_counterexample :
  ~ (forall (dflt : option string) (url : string) (ls : gmap string string),
       getApiUrl dflt (setApiUrl url ls) = Some (strip_trailing_slashes url)).
Proof.
  intros H.
  specialize (H (Some "http://localhost:8000") "/" ∅).
  unfold getApiUrl, setApiUrl in H. rewrite lookup_insert_eq in H.
  simpl in H. discriminate H.
Qed.

(** C9, amended: when [url] has a character other than a trailing slash,
    [getApiUrl()] after [setApiUrl(url)] returns [url] without its maximal
    run of trailing slashes, and storing that result again changes nothing;
    when nothing is left, [getApiUrl()] falls back to [DEFAULT_API_URL]. *)
Theorem getApiUrl_after_setApiUrl (dflt : option string) (url : string)
    (ls : gmap string string) :
  (strip_trailing_slashes url <> "" ->
     getApiUrl dflt (setApiUrl url ls) = Some (strip_trailing_slashes url)
     /\ setApiUrl (strip_trailing_slashes url) (setApiUrl url ls) = setApiUrl url ls)
  /\ (strip_trailing_slashes url = "" -> getApiUrl dflt (setApiUrl url ls) = dflt)
  /\ (exists n, url = (strip_trailing_slashes url ++ slashes n)%string)
  /\ ends_with_slash (strip_trailing_slashes url) = false.
Proof.
  unfold getApiUrl, setApiUrl. rewrite lookup_insert_eq.
  repeat split.
  - unfold Js.or_else. simpl.
    apply JsFacts.truthy_str_true in H. now rewrite H.
  - rewrite strip_idempotent. apply insert_insert_eq.
  - intros E. rewrite E. reflexivity.
  - apply strip_decompose.
  - apply strip_no_trailing_slash.
Qed.

Lemma getApiUrl_after_setApiUrl_witness :
  getApiUrl (Some "http://localhost:8000") (setApiUrl "https://aegis.example/api//" ∅)
    = Some "https://aegis.example/api"
  /\ getApiUrl None (setApiUrl "//" ∅) = None.
Proof.
  destruct (getApiUrl_after_setApiUrl (Some "http://localhost:8000")
              "https://aegis.example/api//" ∅) as [H _].
  destruct (getApiUrl_after_setApiUrl None "//" ∅) as [_ [H' _]].
  split.
  - apply H. simpl. discriminate.
  - apply H'. reflexivity.
Defined.

End ApiUrlFacts.

(** ** The registration form *)
Module RegisterFacts.
Import Register.

(** C10: a submit with an empty field, a password of fewer than 6 code
    units, or a confirmation that differs, issues no effect at all (so no
    register call) and sets an error message; a register call in the trace
    implies that every precondition holds, and when they hold the call is
    made once, with the form's values. *)
Theorem handleSubmit_validates_before_register (st : FormState) (o : RegisterOutcome) :
  ((fullName st = "" \/ email st = "" \/ password st = "" \/ confirmPassword st = ""
    \/ String.length (password st) < 6 \/ password st <> confirmPassword st) ->
     snd (handleSubmit st o) = []
     /\ exists msg, error (fst (handleSubmit st o)) = Some msg)
  /\ (forall e p n, In (RegisterCall e p n) (snd (handleSubmit st o)) ->
        fullName st <> "" /\ email st <> "" /\ password st <> ""
        /\ confirmPassword st <> "" /\ 6 <= String.length (password st)
        /\ password st = confirmPassword st
        /\ e = email st /\ p = password st /\ n = fullName st)
  /\ (fullName st <> "" -> email st <> "" -> password st <> "" ->
      confirmPassword st <> "" -> 6 <= String.length (password st) ->
      password st = confirmPassword st ->
        filter is_register_call (snd (handleSubmit st o))
          = [RegisterCall (email st) (password st) (fullName st)]).
Proof.
  unfold handleSubmit.
  destruct (Js.truthy_str (fullName st)) eqn:E1;
  destruct (Js.truthy_str (email st)) eqn:E2;
  destruct (Js.truthy_str (password st)) eqn:E3;
  destruct (Js.truthy_str (confirmPassword st)) eqn:E4; simpl;
  try (apply JsFacts.truthy_str_false in E1);
  try (apply JsFacts.truthy_str_false in E2);
  try (apply JsFacts.truthy_str_false in E3);
  try (apply JsFacts.truthy_str_false in E4);
  try (split; [intros _; split; [reflexivity|eexists; reflexivity]
              | split; [intros e p n []| intros; congruence]]).
  apply JsFacts.truthy_str_true in E1, E2, E3, E4.
  destruct (Nat.ltb (String.length (password st)) 6) eqn:E5; simpl.
  { apply Nat.ltb_lt in E5.
    split; [intros _; split; [reflexivity|eexists; reflexivity]
           | split; [intros e p n []| intros; lia]]. }
  apply Nat.ltb_ge in E5.
  destruct (String.eqb (password st) (confirmPassword st)) eqn:E6; simpl.
  2:{ apply String.eqb_neq in E6.
      split; [intros _; split; [reflexivity|eexists; reflexivity]
             | split; [intros e p n []| intros; congruence]]. }
  apply String.eqb_eq in E6.
  split; [| split].
  - intros [H|[H|[H|[H|[H|H]]]]]; try congruence; lia.
  - intros e p n Hin.
    assert (RegisterCall e p n = RegisterCall (email st) (password st) (fullName st)) as Heq.
    { destruct o; simpl in Hin.
      - destruct Hin as [H|[H|[]]]; [now symmetry | discriminate H].
      - destruct Hin as [H|[]]. now symmetry. }
    inversion Heq; subst. repeat split; assumption.
  - intros _ _ _ _ _ _. destruct o; reflexivity.
Qed.

Lemma handleSubmit_validates_before_register_witness :
  snd (handleSubmit (mkForm "Asha Rao" "asha@example.org" "abc12" "abc12" false None) Resolved) = []
  /\ filter is_register_call
       (snd (handleSubmit (mkForm "Asha Rao" "asha@example.org" "abc123" "abc123" false None)
               Resolved))
     = [RegisterCall "asha@example.org" "abc123" "Asha Rao"].
Proof.
  split.
  - apply (handleSubmit_validates_before_register
             (mkForm "Asha Rao" "asha@example.org" "abc12" "abc12" false None) Resolved).
    simpl. right; right; right; right; left. lia.
  - apply (handleSubmit_validates_before_register
             (mkForm "Asha Rao" "asha@example.org" "abc123" "abc123" false None) Resolved);
      simpl; try discriminate; try reflexivity; lia.
Defined.

End RegisterFacts.

(** ** The combined scan *)
Module CombinedFacts.
Import Api CombinedTab Examples.

Lemma qmax_Qmax (a b : Q) : qmax a b == Qmax a b.
Proof.
  unfold qmax. destruct (Qle_bool a b) eqn:E.
  - apply Qle_bool_iff in E. symmetry. apply Q.max_r. exact E.
  - assert (~ a <= b)%Q as H by (intros H; apply Qle_bool_iff in H; congruence).
    symmetry. apply Q.max_l. lra.
Qed.

#[local] Instance qmax_proper : Proper (Qeq ==> Qeq ==> Qeq) qmax.
Proof.
  intros a a' Ha b b' Hb. rewrite !qmax_Qmax. now rewrite Ha, Hb.
Qed.

Lemma max_score_nonneg (l : list Q) : (0 <= max_score l)%Q.
Proof.
  induction l as [|a l IH]; simpl; [lra|].
  rewrite qmax_Qmax. apply Q.max_le_iff. now right.
Qed.

Lemma max_score_app (l1 l2 : list Q) :
  max_score (l1 ++ l2) == qmax (max_score l1) (max_score l2).
Proof.
  induction l1 as [|a l1 IH]; simpl.
  - rewrite qmax_Qmax. symmetry. apply Q.max_r. apply max_score_nonneg.
  - rewrite IH. rewrite !qmax_Qmax. apply Q.max_assoc.
Qed.

Lemma max_score_upper (l : list Q) (x : Q) : In x l -> (x <= max_score l)%Q.
Proof.
  induction l as [|a l IH]; simpl; [tauto|].
  intros [->|H]; rewrite qmax_Qmax.
  - apply Q.le_max_l.
  - apply Q.max_le_iff. right. now apply IH.
Qed.

Lemma max_score_attained (l : list Q) :
  l <> [] -> Forall (fun x => 0 <= x)%Q l -> exists x, In x l /\ x == max_score l.
Proof.
  induction l as [|a l IH]; [congruence|]. intros _ Hall.
  inversion Hall as [|? ? Ha Hl]; subst. simpl.
  destruct l as [|b l].
  - exists a. split; [now left|]. simpl. rewrite qmax_Qmax. symmetry. now apply Q.max_l.
  - destruct (IH ltac:(discriminate) Hl) as [x [Hin Hx]].
    destruct (Qle_bool a (max_score (b :: l))) eqn:E.
    + exists x. split; [now right|]. unfold qmax. now rewrite E.
    + exists a. split; [now left|]. unfold qmax. now rewrite E.
Qed.

Lemma sum_scores_app (l1 l2 : list Q) :
  sum_scores (l1 ++ l2) == sum_scores l1 + sum_scores l2.
Proof.
  induction l1 as [|a l1 IH]; simpl; [ring|]. rewrite IH. ring.
Qed.

Lemma mean_app_same_length (l1 l2 : list Q) :
  l1 <> [] -> length l1 = length l2 ->
  mean (l1 ++ l2) == (mean l1 + mean l2) / 2.
Proof.
  intros Hne Hlen. unfold mean. rewrite sum_scores_app, length_app, <- Hlen.
  assert (~ inject_Z (Z.of_nat (length l1)) == 0) as Hn.
  { destruct l1; [congruence|]. simpl length. unfold inject_Z, Qeq. simpl. lia. }
  replace (Z.of_nat (length l1 + length l1)) with (2 * Z.of_nat (length l1))%Z by lia.
  rewrite inject_Z_mult. change (inject_Z 2) with 2%Q. field. exact Hn.
Qed.


Lemma describes_max (l : list Q) (s : option ESSSummary) :
  describes l s -> num_or_zero max_ess s == max_score l.
Proof.
  destruct s as [x|]; simpl.
  - now intros [_ [H _]].
  - intros ->. reflexivity.
Qed.

Lemma describes_avg (l : list Q) (s : option ESSSummary) :
  describes l s -> num_or_zero avg_ess s == mean_or_zero l.
Proof.
  destruct s as [x|]; simpl.
  - intros [Hne [_ H]]. destruct l; [congruence|exact H].
  - intros ->. reflexivity.
Qed.

(** C4: the response merged from a GitHub and a Pastebin response has a
    null [ess_summary] iff it has no finding, provided the two responses it
    is built from do. *)
Theorem combine_summary_null_iff_no_findings (ghRes pbRes : ScanResponse) :
  summary_iff_findings ghRes ->
  summary_iff_findings pbRes ->
  summary_iff_findings (combine ghRes pbRes).
Proof.
  unfold summary_iff_findings, combine, merge_summary. simpl.
  intros [G1 G2] [P1 P2].
  destruct (ess_summary ghRes) as [g|], (ess_summary pbRes) as [q|]; split; intros H;
    try discriminate H; try reflexivity.
  - apply app_eq_nil in H as [Hg _]. specialize (G2 Hg). discriminate G2.
  - apply app_eq_nil in H as [Hg _]. specialize (G2 Hg). discriminate G2.
  - apply app_eq_nil in H as [_ Hp]. specialize (P2 Hp). discriminate P2.
  - rewrite (G1 eq_refl), (P1 eq_refl). reflexivity.
Qed.

Lemma combine_summary_null_iff_no_findings_witness :
  summary_iff_findings (combine gh_example clean_example)
  /\ summary_iff_findings (combine clean_example clean_example).
Proof.
  split; apply combine_summary_null_iff_no_findings;
    unfold summary_iff_findings; simpl; split; intros H; try discriminate H; reflexivity.
Defined.

(** C5, as stated, fails for the merged summary: with GitHub source scores
    9 and 3 (average 6) and one Pastebin source scoring 3, the mean over
    the three sources is 5, the merged [avg_ess] is (6 + 3) / 2. *)
Lemma combine_avg_not_mean_counterexample :
  ~ (forall (ghRes pbRes : ScanResponse) (gh_scores pb_scores : list Q),
       describes gh_scores (ess_summary ghRes) ->
       describes pb_scores (ess_summary pbRes) ->
       describes (gh_scores ++ pb_scores) (ess_summary (combine ghRes pbRes))).
Proof.
  intros H.
  specialize (H gh_example pb_example [9%Q; 3%Q] [3%Q]).
  assert (describes [9%Q; 3%Q] (ess_summary gh_example)) as Hg.
  { simpl. split; [discriminate|]. split; reflexivity. }
  assert (describes [3%Q] (ess_summary pb_example)) as Hp.
  { simpl. split; [discriminate|]. split; reflexivity. }
  destruct (H Hg Hp) as [_ [_ Havg]].
  vm_compute in Havg. discriminate Havg.
Qed.

(** C5, amended: when each response's summary reports the maximum and the
    mean of its own per-source scores, the merged [max_ess] is the maximum
    score over both scans, and the merged [avg_ess] is the mean of the two
    reported averages (a scan without findings counting as 0); that is the
    mean over all sources with findings when both scans have the same
    number of them. *)
Theorem combine_summary_aggregates (ghRes pbRes : ScanResponse)
    (gh_scores pb_scores : list Q) :
  describes gh_scores (ess_summary ghRes) ->
  describes pb_scores (ess_summary pbRes) ->
  match ess_summary (combine ghRes pbRes) with
  | None => gh_scores ++ pb_scores = []
  | Some m =>
      gh_scores ++ pb_scores <> []
      /\ max_ess m == max_score (gh_scores ++ pb_scores)
      /\ avg_ess m == (mean_or_zero gh_scores + mean_or_zero pb_scores) / 2
      /\ (length gh_scores = length pb_scores ->
          avg_ess m == mean (gh_scores ++ pb_scores))
  end.
Proof.
  intros Hg Hp.
  pose proof (describes_max _ _ Hg) as Mg. pose proof (describes_max _ _ Hp) as Mp.
  pose proof (describes_avg _ _ Hg) as Ag. pose proof (describes_avg _ _ Hp) as Ap.
  assert (forall m, ess_summary (combine ghRes pbRes) = Some m ->
            gh_scores ++ pb_scores <> [] ->
            gh_scores ++ pb_scores <> []
            /\ max_ess m == max_score (gh_scores ++ pb_scores)
            /\ avg_ess m == (mean_or_zero gh_scores + mean_or_zero pb_scores) / 2
            /\ (length gh_scores = length pb_scores ->
                avg_ess m == mean (gh_scores ++ pb_scores))) as Hsome.
  { intros m Hm Hne. split; [exact Hne|].
    assert (max_ess m = qmax (num_or_zero max_ess (ess_summary ghRes))
                             (num_or_zero max_ess (ess_summary pbRes))
            /\ avg_ess m = ((num_or_zero avg_ess (ess_summary ghRes)
                             + num_or_zero avg_ess (ess_summary pbRes)) / 2)%Q) as [Em Ea].
    { simpl in Hm. unfold merge_summary in Hm.
      destruct (ess_summary ghRes), (ess_summary pbRes);
        inversion Hm; subst; split; reflexivity. }
    rewrite Em, Ea, Mg, Mp, Ag, Ap. split; [|split].
    - symmetry. apply max_score_app.
    - reflexivity.
    - intros Hlen.
      assert (gh_scores <> []) as Hgne.
      { intros ->. destruct pb_scores; [now apply Hne | discriminate Hlen]. }
      rewrite (mean_app_same_length _ _ Hgne Hlen).
      destruct gh_scores; [congruence|].
      destruct pb_scores; [discriminate Hlen|]. reflexivity. }
  destruct (ess_summary (combine ghRes pbRes)) as [m|] eqn:Em.
  - apply Hsome; [reflexivity|].
    simpl in Em. unfold merge_summary in Em.
    destruct (ess_summary ghRes), (ess_summary pbRes); simpl in Hg, Hp;
      try discriminate Em.
    + destruct Hg as [Hne _]. destruct gh_scores; [congruence|discriminate].
    + destruct Hg as [Hne _]. destruct gh_scores; [congruence|discriminate].
    + destruct Hp as [Hne _]. subst gh_scores. exact Hne.
  - simpl in Em. unfold merge_summary in Em.
    destruct (ess_summary ghRes), (ess_summary pbRes); simpl in Hg, Hp;
      try discriminate Em.
    subst. reflexivity.
Qed.

Lemma combine_summary_aggregates_witness :
  match ess_summary (combine gh_example pb_example) with
  | None => [9%Q; 3%Q] ++ [3%Q] = []
  | Some m =>
      [9%Q; 3%Q] ++ [3%Q] <> []
      /\ max_ess m == max_score ([9%Q; 3%Q] ++ [3%Q])
      /\ avg_ess m == (mean_or_zero [9%Q; 3%Q] + mean_or_zero [3%Q]) / 2
      /\ (length [9%Q; 3%Q] = length [3%Q] -> avg_ess m == mean ([9%Q; 3%Q] ++ [3%Q]))
  end.
Proof.
  apply (combine_summary_aggregates gh_example pb_example [9%Q; 3%Q] [3%Q]);
    simpl; (split; [discriminate|]); split; reflexivity.
Defined.

End CombinedFacts.

(** ** Masking *)
Module MaskFacts.
Import Pipeline.

Lemma mask_chars_length (cs : list ascii) : length (mask_chars cs) = length cs.
Proof.
  unfold mask_chars. destruct (Nat.leb (length cs) 4) eqn:E.
  - apply repeat_length.
  - apply Nat.leb_gt in E.
    rewrite !length_app, repeat_length, length_firstn, length_skipn. lia.
Qed.

Lemma mask_chars_middle (cs : list ascii) (i : nat) :
  2 <= i -> i + 2 < length cs -> nth_error (mask_chars cs) i = Some "*"%char.
Proof.
  intros Hlo Hhi. unfold mask_chars.
  destruct (Nat.leb (length cs) 4) eqn:E.
  - apply Nat.leb_le in E. lia.
  - assert (length (firstn 2 cs) = 2) as Hf by (rewrite length_firstn; lia).
    rewrite nth_error_app2 by lia. rewrite Hf.
    rewrite nth_error_app1 by (rewrite repeat_length; lia).
    apply nth_error_repeat. lia.
Qed.

End MaskFacts.

(** ** What leaves the client: report and history requests *)
Module RequestFacts.
Import Api ScanResults ReportDownloadButton.

Lemma finding_json_strings (f : Finding) :
  In (value f) (json_strings (finding_json f))
  /\ In (value_masked f) (json_strings (finding_json f)).
Proof.
  unfold finding_json. simpl. split; [right; left | right; right; left]; reflexivity.
Qed.

Lemma report_json_strings (p : Props) (f : Finding) (s : string) :
  In f (p_findings p) -> In s (json_strings (finding_json f)) ->
  In s (json_strings (report_json p)).
Proof.
  intros Hf Hs. unfold report_json.
  cbn [json_strings app flat_map snd]. apply in_or_app. left. apply in_flat_map.
  exists (finding_json f). split; [now apply in_map | exact Hs].
Qed.

(** C1, as stated, fails: the Finding of the client carries the matched
    value in [value] next to [value_masked], and the report request
    serialises the findings it was given whole. *)
Lemma report_request_carries_value_counterexample :
  ~ (forall (results : ScanResponse) (scanType target : option string)
            (apiUrl : string) (req : Request) (f : Finding),
       handleDownload (props_of results scanType target apiUrl) = Some req ->
       In f (findings results) ->
       ~ In (value f) (json_strings (body req))).
Proof.
  intros H.
  apply (H Examples.gh_example (Some "github") (Some "acme/shop") "http://localhost:8000"
           (mkRequest "/report/html"
              (report_json (props_of Examples.gh_example (Some "github") (Some "acme/shop")
                              "http://localhost:8000")))
           Examples.aadhaar_finding).
  - reflexivity.
  - now left.
  - simpl body. apply (report_json_strings _ Examples.aadhaar_finding).
    + now left.
    + apply finding_json_strings.
Qed.

(** C1, amended: the masked value written at promotion has the length of
    the raw value and shows a star at every position but the first two and
    the last two; the Finding of the client also has a [value] field, and
    the report request forwards every finding with its [value] and its
    [value_masked]; the history request holds three strings, the scan type,
    the target and the label, and nothing of any finding. *)
Theorem report_forwards_findings_history_holds_none
    (validator_floor : Pipeline.EntityType -> Q) (c : Pipeline.Candidate)
    (results : ScanResponse) (scanType target : option string) (apiUrl : string) :
  (let m := list_ascii_of_string
              (Pipeline.value_masked (Pipeline.promote validator_floor c)) in
   let r := list_ascii_of_string (Pipeline.raw_value c) in
   length m = length r
   /\ forall i, 2 <= i -> i + 2 < length r -> nth_error m i = Some "*"%char)
  /\ (forall req f,
        handleDownload (props_of results scanType target apiUrl) = Some req ->
        In f (findings results) ->
        In (value f) (json_strings (body req))
        /\ In (value_masked f) (json_strings (body req)))
  /\ json_strings (body (save_on_mount results scanType target))
     = opt_string scanType ++ opt_string target
       ++ [match ess_summary results with Some s => label s | None => "" end].
Proof.
  split; [|split].
  - simpl. unfold Pipeline.mask_value.
    rewrite list_ascii_of_string_of_list_ascii.
    split; [apply MaskFacts.mask_chars_length|].
    intros i Hlo Hhi. now apply MaskFacts.mask_chars_middle.
  - intros req f Hreq Hin.
    unfold handleDownload in Hreq.
    destruct (p_findings (props_of results scanType target apiUrl)) eqn:E;
      [discriminate Hreq|].
    inversion Hreq; subst req. simpl body.
    split; apply (report_json_strings _ f); try exact Hin; apply finding_json_strings.
  - destruct scanType, target; reflexivity.
Qed.

Lemma report_forwards_findings_history_holds_none_witness :
  In "234123412346"
     (json_strings (report_json (props_of Examples.gh_example (Some "github") (Some "acme/shop")
                                   "http://localhost:8000")))
  /\ In "23********46"
        (json_strings (report_json (props_of Examples.gh_example (Some "github") (Some "acme/shop")
                                      "http://localhost:8000"))).
Proof.
  destruct (report_forwards_findings_history_holds_none
              (fun _ => 0%Q) Examples.aadhaar_candidate
              Examples.gh_example (Some "github") (Some "acme/shop") "http://localhost:8000")
    as [_ [H _]].
  apply (H (mkRequest "/report/html"
              (report_json (props_of Examples.gh_example (Some "github") (Some "acme/shop")
                              "http://localhost:8000")))
           Examples.aadhaar_finding).
  - reflexivity.
  - simpl. left. reflexivity.
Defined.

(** C7, as stated, fails: next to the five aggregate counters the request
    names the scan type and the target. *)
Lemma history_request_names_target_counterexample :
  ~ (forall (results : ScanResponse) (scanType target : option string) (k : string),
       In k (keys (body (save_on_mount results scanType target))) ->
       In k ["findings_count"; "max_ess"; "ess_label"; "sources_scanned"; "scan_duration"]).
Proof.
  intros H.
  specialize (H Examples.gh_example (Some "github") (Some "acme/shop") "target").
  simpl in H.
  assert ("scan_type" = "target" \/ "target" = "target" \/ "findings_count" = "target"
          \/ "max_ess" = "target" \/ "ess_label" = "target" \/ "sources_scanned" = "target"
          \/ "scan_duration" = "target" \/ False) as Hk by (right; left; reflexivity).
  specialize (H Hk).
  repeat (destruct H as [H|H]; [discriminate H|]). exact H.
Qed.

(** C7, amended: the history request has the five aggregate counters and,
    when the tab that shows the results supplies them, [scan_type] and
    [target]; its only strings are the scan type, the target and the label;
    and it is the same request whatever the findings are, as long as there
    are as many of them. *)
Theorem history_request_is_aggregate (results : ScanResponse)
    (scanType target : option string) (others : list Finding) :
  length others = length (findings results) ->
  keys (body (save_on_mount results scanType target))
    = opt_key "scan_type" scanType ++ opt_key "target" target
      ++ ["findings_count"; "max_ess"; "ess_label"; "sources_scanned"; "scan_duration"]
  /\ json_strings (body (save_on_mount results scanType target))
     = opt_string scanType ++ opt_string target
       ++ [match ess_summary results with Some s => label s | None => "" end]
  /\ save_on_mount
       (mkScan others (ess_summary results) (total_sources_scanned results)
          (scan_duration results)) scanType target
     = save_on_mount results scanType target.
Proof.
  intros Hlen. split; [|split].
  - destruct scanType, target; reflexivity.
  - destruct scanType, target; reflexivity.
  - unfold save_on_mount, history_item. simpl. now rewrite Hlen.
Qed.

Lemma history_request_is_aggregate_witness :
  save_on_mount
    (mkScan [Examples.email_finding; Examples.email_finding]
       (ess_summary Examples.gh_example)
       (total_sources_scanned Examples.gh_example)
       (scan_duration Examples.gh_example)) (Some "github") (Some "acme/shop")
  = save_on_mount Examples.gh_example (Some "github") (Some "acme/shop").
Proof.
  apply (history_request_is_aggregate Examples.gh_example (Some "github") (Some "acme/shop")
           [Examples.email_finding; Examples.email_finding]).
  reflexivity.
Defined.

End RequestFacts.

(** ** The authentication context *)
Module AuthFacts.
Import AuthContext.

Lemma isAuthenticated_spec (st : AuthState) :
  isAuthenticated st = true
  <-> (exists t, token st = Some t /\ t <> "") /\ (exists u, user st = Some u).
Proof.
  unfold isAuthenticated. destruct (token st) as [t|], (user st) as [u|]; simpl;
    rewrite ?andb_true_r, ?andb_false_r.
  - rewrite JsFacts.truthy_str_true. split.
    + intros H. split; eauto.
    + intros [[t' [Ht Hne]] _]. now inversion Ht; subst.
  - split; [discriminate|]. intros [_ [u Hu]]. discriminate Hu.
  - split; [discriminate|]. intros [[t [Ht _]] _]. discriminate Ht.
  - split; [discriminate|]. intros [[t [Ht _]] _]. discriminate Ht.
Qed.

Section WithJSON.
Variable JSON_parse : string -> Parsed.
Variable JSON_stringify : User -> string.

Lemma authenticate_ok_sets_both (fallback tok mail name : string)
    (st : AuthState) (ls : gmap string string) :
  let '(st', ls', err) := authenticate JSON_stringify fallback (Ok tok mail name) st ls in
  token st' = Some tok /\ user st' = Some (mkUser mail name)
  /\ ls' !! TOKEN_KEY = Some tok
  /\ ls' !! USER_KEY = Some (JSON_stringify (mkUser mail name))
  /\ err = None.
Proof.
  simpl. repeat split.
  - rewrite lookup_insert_ne by discriminate. apply lookup_insert_eq.
  - apply lookup_insert_eq.
Qed.

Lemma authenticate_not_ok_changes_nothing (fallback : string) (detail : option string)
    (st : AuthState) (ls : gmap string string) :
  authenticate JSON_stringify fallback (NotOk detail) st ls
  = (st, ls, Some (Js.or_default detail fallback)).
Proof. reflexivity. Qed.

Lemma logout_clears_both (st : AuthState) (ls : gmap string string) :
  let '(st', ls') := logout st ls in
  token st' = None /\ user st' = None /\ isAuthenticated st' = false
  /\ ls' !! TOKEN_KEY = None /\ ls' !! USER_KEY = None.
Proof.
  simpl. repeat split.
  - rewrite lookup_delete_ne by discriminate. apply lookup_delete_eq.
  - apply lookup_delete_eq.
Qed.

Lemma restore_without_stored_pair (ls : gmap string string) :
  Js.truthy (ls !! TOKEN_KEY) && Js.truthy (ls !! USER_KEY) = false ->
  restore JSON_parse initial ls = (mkAuth None None false, ls).
Proof.
  unfold restore. destruct (ls !! TOKEN_KEY) as [t|], (ls !! USER_KEY) as [u|]; simpl;
    try reflexivity.
  intros ->. reflexivity.
Qed.

Lemma restore_parsed_user (ls : gmap string string) (tok raw : string) (u : User) :
  ls !! TOKEN_KEY = Some tok -> tok <> "" ->
  ls !! USER_KEY = Some raw -> raw <> "" ->
  JSON_parse raw = Value (Some u) ->
  restore JSON_parse initial ls = (mkAuth (Some u) (Some tok) false, ls).
Proof.
  intros Ht Hne Hu Hne' Hp. unfold restore. rewrite Ht, Hu.
  apply JsFacts.truthy_str_true in Hne, Hne'. rewrite Hne, Hne', Hp. reflexivity.
Qed.
End WithJSON.

(** C8, at the failing input: with a stored token and a stored user string
    that [JSON.parse] rejects, the mount effect has already called
    [setToken] when the parse throws; the handler removes both storage keys
    and leaves the state with the token set and the user null. *)
Theorem restore_keeps_token_when_parse_throws
    (JSON_parse : string -> Parsed) (ls : gmap string string) (tok raw : string) :
  ls !! TOKEN_KEY = Some tok -> tok <> "" ->
  ls !! USER_KEY = Some raw -> raw <> "" ->
  JSON_parse raw = SyntaxError ->
  let '(st', ls') := restore JSON_parse initial ls in
  token st' = Some tok /\ user st' = None /\ isAuthenticated st' = false
  /\ ls' !! TOKEN_KEY = None /\ ls' !! USER_KEY = None.
Proof.
  intros Ht Hne Hu Hne' Hp. unfold restore. rewrite Ht, Hu.
  apply JsFacts.truthy_str_true in Hne, Hne'. rewrite Hne, Hne', Hp. simpl.
  split; [reflexivity|]. split; [reflexivity|]. split.
  { unfold isAuthenticated. simpl. apply andb_false_r. }
  split.
  - rewrite lookup_delete_ne by discriminate. apply lookup_delete_eq.
  - apply lookup_delete_eq.
Qed.

Lemma restore_keeps_token_when_parse_throws_witness :
  let '(st', ls') :=
    restore (fun raw => if String.eqb raw "{oops" then SyntaxError else Value None)
      initial (<[USER_KEY := "{oops"]> (<[TOKEN_KEY := "tok"]> ∅)) in
  token st' = Some "tok" /\ user st' = None /\ isAuthenticated st' = false
  /\ ls' !! TOKEN_KEY = None /\ ls' !! USER_KEY = None.
Proof.
  apply (restore_keeps_token_when_parse_throws
           (fun raw => if String.eqb raw "{oops" then SyntaxError else Value None)
           (<[USER_KEY := "{oops"]> (<[TOKEN_KEY := "tok"]> ∅)) "tok" "{oops").
  - vm_compute. reflexivity.
  - discriminate.
  - vm_compute. reflexivity.
  - discriminate.
  - reflexivity.
Defined.

End AuthFacts.

(** ** The Verhoeff check *)
Module VerhoeffFacts.
Import Pipeline.

Lemma all_below_spec (n : nat) (f : nat -> bool) :
  all_below n f = true -> forall x, x < n -> f x = true.
Proof.
  unfold all_below. intros H x Hx.
  apply (proj1 (forallb_forall f (seq 0 n)) H). apply in_seq. lia.
Qed.

Lemma d_closed (a b : nat) : a < 10 -> b < 10 -> d a b < 10.
Proof.
  intros Ha Hb.
  assert (all_below 10 (fun a => all_below 10 (fun b => Nat.ltb (d a b) 10)) = true) as H
    by (vm_compute; reflexivity).
  apply Nat.ltb_lt. now apply (all_below_spec _ _ (all_below_spec _ _ H a Ha)).
Qed.

Lemma p_closed (row x : nat) : row < 8 -> x < 10 -> p row x < 10.
Proof.
  intros Hr Hx.
  assert (all_below 8 (fun r => all_below 10 (fun x => Nat.ltb (p r x) 10)) = true) as H
    by (vm_compute; reflexivity).
  apply Nat.ltb_lt. now apply (all_below_spec _ _ (all_below_spec _ _ H row Hr)).
Qed.

Lemma d_cancel_left (a x y : nat) :
  a < 10 -> x < 10 -> y < 10 -> d a x = d a y -> x = y.
Proof.
  intros Ha Hx Hy.
  assert (all_below 10 (fun a => all_below 10 (fun x => all_below 10 (fun y =>
            implb (Nat.eqb (d a x) (d a y)) (Nat.eqb x y)))) = true) as H
    by (vm_compute; reflexivity).
  pose proof (all_below_spec _ _ (all_below_spec _ _ (all_below_spec _ _ H a Ha) x Hx) y Hy) as E.
  cbv beta in E. intros Heq. rewrite Heq, Nat.eqb_refl in E. simpl in E. now apply Nat.eqb_eq.
Qed.

Lemma d_cancel_right (a b x : nat) :
  a < 10 -> b < 10 -> x < 10 -> d a x = d b x -> a = b.
Proof.
  intros Ha Hb Hx.
  assert (all_below 10 (fun a => all_below 10 (fun b => all_below 10 (fun x =>
            implb (Nat.eqb (d a x) (d b x)) (Nat.eqb a b)))) = true) as H
    by (vm_compute; reflexivity).
  pose proof (all_below_spec _ _ (all_below_spec _ _ (all_below_spec _ _ H a Ha) b Hb) x Hx) as E.
  cbv beta in E. intros Heq. rewrite Heq, Nat.eqb_refl in E. simpl in E. now apply Nat.eqb_eq.
Qed.

Lemma p_injective (row x y : nat) :
  row < 8 -> x < 10 -> y < 10 -> p row x = p row y -> x = y.
Proof.
  intros Hr Hx Hy.
  assert (all_below 8 (fun r => all_below 10 (fun x => all_below 10 (fun y =>
            implb (Nat.eqb (p r x) (p r y)) (Nat.eqb x y)))) = true) as H
    by (vm_compute; reflexivity).
  pose proof (all_below_spec _ _ (all_below_spec _ _ (all_below_spec _ _ H row Hr) x Hx) y Hy) as E.
  cbv beta in E. intros Heq. rewrite Heq, Nat.eqb_refl in E. simpl in E. now apply Nat.eqb_eq.
Qed.

Lemma mod8_lt (i : nat) : i mod 8 < 8.
Proof. apply Nat.mod_upper_bound. discriminate. Qed.

(** The accumulator loop. *)
Lemma verhoeff_loop_app (l1 l2 : list nat) (i c : nat) :
  verhoeff_loop i c (l1 ++ l2)
  = verhoeff_loop (i + length l1) (verhoeff_loop i c l1) l2.
Proof.
  revert i c. induction l1 as [|x l1 IH]; intros i c; simpl.
  - now rewrite Nat.add_0_r.
  - rewrite IH. f_equal. lia.
Qed.

Lemma verhoeff_loop_closed (l : list nat) (i c : nat) :
  c < 10 -> Forall (fun x => x < 10) l -> verhoeff_loop i c l < 10.
Proof.
  revert i c. induction l as [|x l IH]; intros i c Hc Hl; simpl; [exact Hc|].
  inversion Hl; subst. apply IH; [|assumption].
  apply d_closed; [exact Hc|]. apply p_closed; [apply mod8_lt | assumption].
Qed.

Lemma verhoeff_loop_injective (l : list nat) (i c c' : nat) :
  c < 10 -> c' < 10 -> Forall (fun x => x < 10) l ->
  verhoeff_loop i c l = verhoeff_loop i c' l -> c = c'.
Proof.
  revert i c c'. induction l as [|x l IH]; intros i c c' Hc Hc' Hl; simpl; [tauto|].
  inversion Hl; subst. intros H.
  assert (p (i mod 8) x < 10) as Hp by (apply p_closed; [apply mod8_lt | assumption]).
  apply IH in H; try assumption; try (now apply d_closed).
  now apply d_cancel_right in H.
Qed.

(** Digits of a string. *)
Lemma digit_of_ascii_lt (c : ascii) (x : nat) : digit_of_ascii c = Some x -> x < 10.
Proof.
  unfold digit_of_ascii.
  destruct (Nat.leb 48 (nat_of_ascii c) && Nat.leb (nat_of_ascii c) 57) eqn:E; [|discriminate].
  apply andb_true_iff in E as [E1 E2]. apply Nat.leb_le in E1, E2.
  intros H. inversion H. lia.
Qed.

Lemma digit_of_ascii_injective (a b : ascii) (x : nat) :
  digit_of_ascii a = Some x -> digit_of_ascii b = Some x -> a = b.
Proof.
  unfold digit_of_ascii.
  destruct (Nat.leb 48 (nat_of_ascii a) && Nat.leb (nat_of_ascii a) 57) eqn:Ea; [|discriminate].
  destruct (Nat.leb 48 (nat_of_ascii b) && Nat.leb (nat_of_ascii b) 57) eqn:Eb; [|discriminate].
  apply andb_true_iff in Ea as [A1 A2]. apply andb_true_iff in Eb as [B1 B2].
  apply Nat.leb_le in A1, A2, B1, B2.
  intros Ha Hb. inversion Ha. inversion Hb.
  assert (nat_of_ascii a = nat_of_ascii b) as E by lia.
  rewrite <- (ascii_nat_embedding a), <- (ascii_nat_embedding b). now rewrite E.
Qed.

Lemma digits_of_lt (s : string) (ds : list nat) :
  digits_of s = Some ds -> Forall (fun x => x < 10) ds.
Proof.
  revert ds. induction s as [|c s IH]; intros ds; simpl.
  - intros H. inversion H. constructor.
  - destruct (digit_of_ascii c) as [x|] eqn:Ec; [|discriminate].
    destruct (digits_of s) as [xs|]; [|discriminate].
    intros H. inversion H. constructor; [now apply (digit_of_ascii_lt c) | now apply IH].
Qed.

Lemma digits_of_cons_app (pre post : string) (c : ascii) :
  digits_of (pre +:+ String c post)
  = match digits_of pre, digit_of_ascii c, digits_of post with
    | Some dp, Some x, Some dq => Some (dp ++ x :: dq)
    | _, _, _ => None
    end.
Proof.
  induction pre as [|a pre IH].
  - change ("" +:+ String c post) with (String c post). simpl.
    destruct (digit_of_ascii c), (digits_of post); reflexivity.
  - change (String a pre +:+ String c post) with (String a (pre +:+ String c post)).
    simpl. rewrite IH.
    destruct (digit_of_ascii a), (digits_of pre), (digit_of_ascii c), (digits_of post);
      reflexivity.
Qed.

Lemma verhoeff_accumulator_split (dp dq : list nat) (x : nat) :
  verhoeff_accumulator (dp ++ x :: dq)
  = verhoeff_loop (S (length dq))
      (d (verhoeff_loop 0 0 (rev dq)) (p (length dq mod 8) x))
      (rev dp).
Proof.
  unfold verhoeff_accumulator.
  rewrite rev_app_distr. simpl rev. rewrite <- app_assoc. simpl app.
  rewrite verhoeff_loop_app. simpl. rewrite length_rev. reflexivity.
Qed.

Lemma single_digit_changes_accumulator (dp dq : list nat) (x y : nat) :
  Forall (fun x => x < 10) dp -> Forall (fun x => x < 10) dq ->
  x < 10 -> y < 10 -> x <> y ->
  verhoeff_accumulator (dp ++ x :: dq) <> verhoeff_accumulator (dp ++ y :: dq).
Proof.
  intros Hp Hq Hx Hy Hne. rewrite !verhoeff_accumulator_split. intros H.
  assert (verhoeff_loop 0 0 (rev dq) < 10) as Hc.
  { apply verhoeff_loop_closed; [lia|]. now apply Forall_rev. }
  pose proof (mod8_lt (length dq)) as Hm.
  apply verhoeff_loop_injective in H.
  - apply d_cancel_left in H; try assumption; try (now apply p_closed).
    apply p_injective in H; try assumption. contradiction.
  - apply d_closed; [assumption | now apply p_closed].
  - apply d_closed; [assumption | now apply p_closed].
  - now apply Forall_rev.
Qed.


(** C3: the Aadhaar validator accepts exactly the 12-digit strings whose
    final Verhoeff accumulator is 0; it accepts the test vector
    234123412346; and whenever it accepts a string, it rejects every string
    that differs from it in one character. *)
Theorem validate_aadhaar_detects_single_digit_errors :
  (forall raw, validate_aadhaar raw = true
     <-> exists ds, digits_of raw = Some ds /\ length ds = 12
                    /\ verhoeff_accumulator ds = 0)
  /\ validate_aadhaar "234123412346" = true
  /\ (forall (pre post : string) (a b : ascii),
        a <> b ->
        validate_aadhaar (pre +:+ String a post) = true ->
        validate_aadhaar (pre +:+ String b post) = false).
Proof.
  split; [|split].
  - intros raw. unfold validate_aadhaar. destruct (digits_of raw) as [ds|].
    + rewrite andb_true_iff, !Nat.eqb_eq. split.
      * intros [H1 H2]. exists ds. auto.
      * intros [ds' [E [H1 H2]]]. inversion E; subst. auto.
    + split; [discriminate|]. intros [ds [E _]]. discriminate E.
  - vm_compute. reflexivity.
  - intros pre post a b Hne. unfold validate_aadhaar.
    rewrite !digits_of_cons_app.
    destruct (digits_of pre) as [dp|] eqn:Ep; [|discriminate].
    destruct (digit_of_ascii a) as [x|] eqn:Ea; [|discriminate].
    destruct (digits_of post) as [dq|] eqn:Eq; [|discriminate].
    destruct (digit_of_ascii b) as [y|] eqn:Eb; [|reflexivity].
    rewrite andb_true_iff, !Nat.eqb_eq. intros [Hlen Hacc].
    apply andb_false_iff. right. apply Nat.eqb_neq. intros Hacc'.
    apply (single_digit_changes_accumulator dp dq x y).
    + now apply (digits_of_lt pre).
    + now apply (digits_of_lt post).
    + now apply (digit_of_ascii_lt a).
    + now apply (digit_of_ascii_lt b).
    + intros ->. apply Hne. now apply (digit_of_ascii_injective a b y).
    + congruence.
Qed.

Lemma validate_aadhaar_detects_single_digit_errors_witness :
  validate_aadhaar ("2341" +:+ String "9" "3412346") = false.
Proof.
  destruct validate_aadhaar_detects_single_digit_errors as [_ [_ H]].
  apply (H "2341" "3412346" "2"%char "9"%char).
  - discriminate.
  - vm_compute. reflexivity.
Defined.

End VerhoeffFacts.

(** ** Validation and disambiguation in the pipeline *)
Module PipelineFacts.
Import Pipeline.

Section Stages.
Variable PAN_ENTITY_CHARS : list ascii.
Variable STATE_CODES : list string.
Variable gstin_tail_ok : string -> bool.
Variable format_ok : EntityType -> string -> bool.
Variable validator_floor : EntityType -> Q.
Variable classify : Finding -> string -> DisambiguationVerdict.
Variable threshold : Q.
Variable synthetic_note : string.
Variable score_source : list Finding -> Q.

Local Abbreviation validate :=
  (Pipeline.validate PAN_ENTITY_CHARS STATE_CODES gstin_tail_ok format_ok).
Local Abbreviation validation_stage :=
  (Pipeline.validation_stage PAN_ENTITY_CHARS STATE_CODES gstin_tail_ok format_ok
     validator_floor).
Local Abbreviation promote := (Pipeline.promote validator_floor).
Local Abbreviation disambiguate := (Pipeline.disambiguate classify threshold synthetic_note).
Local Abbreviation disambiguation_stage :=
  (Pipeline.disambiguation_stage classify threshold synthetic_note).
Local Abbreviation source_findings :=
  (Pipeline.source_findings PAN_ENTITY_CHARS STATE_CODES gstin_tail_ok format_ok
     validator_floor classify threshold synthetic_note).
Local Abbreviation scan_source :=
  (Pipeline.scan_source PAN_ENTITY_CHARS STATE_CODES gstin_tail_ok format_ok
     validator_floor classify threshold synthetic_note score_source).

Lemma validation_stage_cons (c : Candidate) (rest : list Candidate) :
  validation_stage (c :: rest)
  = if valid (validate c) then promote c :: validation_stage rest
    else validation_stage rest.
Proof. reflexivity. Qed.

Lemma validation_stage_app (l1 l2 : list Candidate) :
  validation_stage (l1 ++ l2) = validation_stage l1 ++ validation_stage l2.
Proof.
  induction l1 as [|c l1 IH]; [reflexivity|].
  rewrite <- app_comm_cons, !validation_stage_cons.
  destruct (valid (validate c)); [rewrite <- app_comm_cons; f_equal|]; exact IH.
Qed.

Lemma validation_stage_origin (cands : list Candidate) (f : Finding) :
  In f (validation_stage cands) ->
  exists c, In c cands /\ valid (validate c) = true /\ f = promote c.
Proof.
  induction cands as [|c cands IH]; [intros []|].
  rewrite validation_stage_cons.
  destruct (valid (validate c)) eqn:E.
  - intros [<-|H].
    + exists c. split; [now left|]. split; [exact E|reflexivity].
    + destruct (IH H) as [c' [Hin Hc']]. exists c'. split; [now right|exact Hc'].
  - intros H. destruct (IH H) as [c' [Hin Hc']]. exists c'. split; [now right|exact Hc'].
Qed.

Lemma disambiguate_keeps_identity (f : Finding) :
  type (disambiguate f) = type f
  /\ value_masked (disambiguate f) = value_masked f
  /\ snippet (disambiguate f) = snippet f
  /\ source (disambiguate f) = source f
  /\ source_url (disambiguate f) = source_url f
  /\ platform (disambiguate f) = platform f.
Proof.
  unfold Pipeline.disambiguate.
  destruct (above_threshold threshold (classify f (snippet f))); simpl; auto 10.
Qed.

Lemma source_findings_type (use_nlp : bool) (cands : list Candidate) (f : Finding) :
  In f (source_findings use_nlp cands) ->
  exists c, In c cands /\ valid (validate c) = true /\ type f = c_type c.
Proof.
  unfold Pipeline.source_findings, Pipeline.disambiguation_stage.
  destruct use_nlp.
  - intros H. apply in_map_iff in H as [g [<- Hg]].
    apply validation_stage_origin in Hg as [c [Hin [Hv ->]]].
    exists c. split; [exact Hin|]. split; [exact Hv|].
    now destruct (disambiguate_keeps_identity (promote c)) as [-> _].
  - intros H. apply validation_stage_origin in H as [c [Hin [Hv ->]]].
    exists c. auto.
Qed.

(** C2: a candidate whose validation fails is dropped: the findings and
    the score of its source are those of the same source without it, with
    disambiguation on or off; every finding of the validation stage is the
    promotion of a candidate that passed; and a source in which no
    candidate of some type passes yields no finding of that type. *)
Theorem invalid_candidate_is_dropped (use_nlp : bool) (c : Candidate)
    (before after : list Candidate) :
  valid (validate c) = false ->
  validation_stage (before ++ c :: after) = validation_stage (before ++ after)
  /\ scan_source use_nlp (before ++ c :: after) = scan_source use_nlp (before ++ after)
  /\ (forall f, In f (validation_stage (before ++ c :: after)) ->
        exists c', In c' (before ++ after) /\ valid (validate c') = true
                   /\ f = promote c')
  /\ ((forall c', In c' (before ++ after) -> c_type c' = c_type c ->
         valid (validate c') = false) ->
      forall f, In f (fst (scan_source use_nlp (before ++ c :: after))) ->
        type f <> c_type c).
Proof.
  intros Hbad.
  assert (validation_stage (before ++ c :: after) = validation_stage (before ++ after)) as E.
  { rewrite !validation_stage_app. f_equal. rewrite validation_stage_cons. now rewrite Hbad. }
  assert (scan_source use_nlp (before ++ c :: after)
          = scan_source use_nlp (before ++ after)) as E'.
  { unfold Pipeline.scan_source, Pipeline.source_findings. now rewrite E. }
  split; [exact E|]. split; [exact E'|]. split.
  - intros f Hf. rewrite E in Hf. now apply validation_stage_origin.
  - intros Hall f Hf Ht. rewrite E' in Hf.
    apply source_findings_type in Hf as [c' [Hin [Hv Hty]]].
    rewrite (Hall c' Hin) in Hv; [discriminate Hv | congruence].
Qed.

(** C6, amended: with the stage disabled the findings are returned as they
    are; with it enabled no finding is removed, and a finding whose context
    is classified synthetic with a probability above the threshold keeps
    its place, type, masked value, snippet and source, has its risk demoted
    by exactly one tier when it is above Low and stays Low when it is Low,
    and has its confidence multiplied by [1 - probability]; any other
    finding is unchanged. *)
Theorem disambiguation_demotes_without_deleting (fs : list Finding) :
  disambiguation_stage false fs = fs
  /\ length (disambiguation_stage true fs) = length fs
  /\ (forall i f,
        nth_error fs i = Some f ->
        is_synthetic (classify f (snippet f)) = true ->
        (threshold < probability (classify f (snippet f)))%Q ->
        exists f',
          nth_error (disambiguation_stage true fs) i = Some f'
          /\ risk f' = demote (risk f)
          /\ (risk f <> Low -> S (tier (risk f')) = tier (risk f))
          /\ (risk f = Low -> risk f' = Low)
          /\ confidence f' == confidence f * (1 - probability (classify f (snippet f)))
          /\ type f' = type f /\ value_masked f' = value_masked f
          /\ snippet f' = snippet f /\ source f' = source f
          /\ source_url f' = source_url f /\ platform f' = platform f)
  /\ (forall i f,
        nth_error fs i = Some f ->
        above_threshold threshold (classify f (snippet f)) = false ->
        nth_error (disambiguation_stage true fs) i = Some f).
Proof.
  split; [reflexivity|]. split; [apply length_map|]. split.
  - intros i f Hi Hsyn Hp.
    exists (disambiguate f). split.
    { unfold Pipeline.disambiguation_stage.
      rewrite nth_error_map, Hi. reflexivity. }
    assert (above_threshold threshold (classify f (snippet f)) = true) as Ha.
    { unfold above_threshold. rewrite Hsyn. simpl. apply negb_true_iff.
      destruct (Qle_bool (probability (classify f (snippet f))) threshold) eqn:E;
        [|reflexivity].
      apply Qle_bool_iff in E. lra. }
    unfold Pipeline.disambiguate. rewrite Ha. simpl.
    split; [reflexivity|]. split; [destruct (risk f); simpl; congruence|].
    split; [intros ->; reflexivity|].
    split; [reflexivity|]. auto 10.
  - intros i f Hi Ha.
    unfold Pipeline.disambiguation_stage.
    rewrite nth_error_map, Hi. simpl. unfold Pipeline.disambiguate. now rewrite Ha.
Qed.
End Stages.

Lemma invalid_candidate_is_dropped_witness :
  fst (scan_source [] [] (fun _ => true) (fun _ _ => true) (fun _ => (95 # 100)%Q)
         Examples.test_card_classifier (6 # 10) "likely test data" (fun _ => 0%Q)
         true ([] ++ Examples.bad_aadhaar_candidate :: [Examples.aadhaar_candidate]))
  = fst (scan_source [] [] (fun _ => true) (fun _ _ => true) (fun _ => (95 # 100)%Q)
         Examples.test_card_classifier (6 # 10) "likely test data" (fun _ => 0%Q)
         true ([] ++ [Examples.aadhaar_candidate])).
Proof.
  destruct (invalid_candidate_is_dropped [] [] (fun _ => true) (fun _ _ => true)
              (fun _ => (95 # 100)%Q) Examples.test_card_classifier (6 # 10)
              "likely test data" (fun _ => 0%Q) true
              Examples.bad_aadhaar_candidate [] [Examples.aadhaar_candidate])
    as [_ [H _]].
  - vm_compute. reflexivity.
  - now rewrite H.
Defined.

(** C6, as stated, fails at the lowest tier: a Low finding classified
    synthetic above the threshold has no tier to go down to and stays
    Low. *)
Lemma demotion_stops_at_low_counterexample :
  ~ (forall (classify : Finding -> string -> DisambiguationVerdict) (threshold : Q)
            (synthetic_note : string) (fs : list Finding) (i : nat) (f : Finding),
       nth_error fs i = Some f ->
       is_synthetic (classify f (snippet f)) = true ->
       (threshold < probability (classify f (snippet f)))%Q ->
       exists f',
         nth_error (disambiguation_stage classify threshold synthetic_note true fs) i
           = Some f'
         /\ S (tier (risk f')) = tier (risk f)).
Proof.
  intros H.
  destruct (H Examples.test_account_classifier (6 # 10)%Q "likely test data"
              [Examples.test_email_finding] 0 Examples.test_email_finding)
    as [f' [Hf Ht]].
  - reflexivity.
  - reflexivity.
  - vm_compute. reflexivity.
  - simpl in Hf. inversion Hf; subst f'. discriminate Ht.
Qed.

Lemma disambiguation_demotes_without_deleting_witness :
  exists f',
    nth_error (disambiguation_stage Examples.test_card_classifier (6 # 10)
                 "likely test data" true [Examples.card_finding]) 0 = Some f'
    /\ risk f' = High
    /\ confidence f' == (9 # 10) * (1 - (9 # 10)).
Proof.
  destruct (disambiguation_demotes_without_deleting Examples.test_card_classifier
              (6 # 10) "likely test data" [Examples.card_finding]) as [_ [_ [H _]]].
  destruct (H 0 Examples.card_finding) as [f' [H1 [H2 [_ [_ [H4 _]]]]]].
  - reflexivity.
  - reflexivity.
  - vm_compute. reflexivity.
  - exists f'. split; [exact H1|]. split; [exact H2|exact H4].
Defined.

End PipelineFacts.

(** ** The request helpers *)
Module ApiClientFacts.
Import Api ApiClient AuthContext.

Lemma append_nonempty (a : ascii) (s t : string) : String a s +:+ t <> "".
Proof. discriminate. Qed.

Lemma bearer_of_token (ls : gmap string string) (tok : string) :
  ls !! TOKEN_KEY = Some tok -> tok <> "" ->
  bearer ls = [("Authorization", "Bearer " +:+ tok)].
Proof.
  intros Hl Hne. unfold bearer, getToken. change "aegis_token" with TOKEN_KEY.
  rewrite Hl. apply JsFacts.truthy_str_true in Hne. now rewrite Hne.
Qed.

Lemma bearer_without_token (ls : gmap string string) :
  ls !! TOKEN_KEY = None -> bearer ls = [].
Proof.
  intros Hl. unfold bearer, getToken. change "aegis_token" with TOKEN_KEY. now rewrite Hl.
Qed.

(** X1: after a login or registration that the server answers with a
    non-empty token, every request of the API client carries that token as
    [Authorization: Bearer <token>]. *)
Theorem requests_carry_token_after_login
    (JSON_stringify : User -> string) (dflt : option string) (fallback tok mail name : string)
    (st : AuthState) (ls : gmap string string) (endpoint : string) :
  tok <> "" ->
  let ls' := snd (fst (authenticate JSON_stringify fallback (Ok tok mail name) st ls)) in
  headers (post_call dflt ls' endpoint)
    = [("Content-Type", "application/json"); ("Authorization", "Bearer " +:+ tok)]
  /\ headers (get_call dflt ls' endpoint) = [("Authorization", "Bearer " +:+ tok)]
  /\ headers (del_call dflt ls' endpoint) = [("Authorization", "Bearer " +:+ tok)]
  /\ headers (saveProfile_call dflt ls')
     = [("Content-Type", "application/json"); ("Authorization", "Bearer " +:+ tok)].
Proof.
  intros Hne. simpl.
  assert (bearer (<[USER_KEY := JSON_stringify (mkUser mail name)]>
                    (<[TOKEN_KEY := tok]> ls))
          = [("Authorization", "Bearer " +:+ tok)]) as Hb.
  { apply bearer_of_token; [|exact Hne].
    rewrite lookup_insert_ne by discriminate. apply lookup_insert_eq. }
  unfold post_call, get_call, del_call, saveProfile_call. simpl. rewrite Hb. auto.
Qed.

Lemma requests_carry_token_after_login_witness :
  headers (get_call (Some "http://localhost:8000")
             (snd (fst (authenticate (fun u => full_name u) "Login failed"
                          (Ok "tok" "asha@example.org" "Asha Rao") initial ∅)))
             "/history")
  = [("Authorization", "Bearer tok")].
Proof.
  apply (requests_carry_token_after_login (fun u => full_name u)
           (Some "http://localhost:8000") "Login failed" "tok" "asha@example.org"
           "Asha Rao" initial ∅ "/history").
  discriminate.
Defined.

(** X2: after a logout no request carries an [Authorization] header,
    whatever the storage held. *)
Theorem requests_carry_no_token_after_logout
    (dflt : option string) (st : AuthState) (ls : gmap string string) (endpoint : string) :
  let ls' := snd (logout st ls) in
  headers (post_call dflt ls' endpoint) = [("Content-Type", "application/json")]
  /\ headers (get_call dflt ls' endpoint) = []
  /\ headers (del_call dflt ls' endpoint) = []
  /\ headers (saveProfile_call dflt ls') = [("Content-Type", "application/json")].
Proof.
  simpl.
  assert (bearer (delete USER_KEY (delete TOKEN_KEY ls)) = []) as Hb.
  { apply bearer_without_token.
    rewrite lookup_delete_ne by discriminate. apply lookup_delete_eq. }
  unfold post_call, get_call, del_call, saveProfile_call. simpl. rewrite Hb. auto.
Qed.




(** X4: once [setApiUrl(url)] has stored a URL with something left after
    the trailing slashes are removed, every request goes to that URL
    followed by the endpoint, and the stored part does not end in a slash:
    the endpoint's own slash is the only one at the join. *)
Theorem request_url_after_setApiUrl (dflt : option string) (u endpoint : string)
    (ls : gmap string string) :
  strip_trailing_slashes u <> "" ->
  request_url dflt (setApiUrl u ls) endpoint = strip_trailing_slashes u +:+ endpoint
  /\ url (post_call dflt (setApiUrl u ls) endpoint)
     = url (get_call dflt (setApiUrl u ls) endpoint)
  /\ ends_with_slash (strip_trailing_slashes u) = false.
Proof.
  intros Hne. unfold request_url, getApiUrl, setApiUrl.
  rewrite lookup_insert_eq. unfold Js.or_else. simpl.
  apply JsFacts.truthy_str_true in Hne. rewrite Hne. simpl.
  split; [reflexivity|]. split; [|apply ApiUrlFacts.strip_no_trailing_slash].
  unfold post_call, get_call, request_url, getApiUrl. simpl.
  rewrite lookup_insert_eq. reflexivity.
Qed.

Lemma request_url_after_setApiUrl_witness :
  request_url None (setApiUrl "https://aegis.example/api//" ∅) "/scan/pastebin"
  = "https://aegis.example/api/scan/pastebin".
Proof.
  apply (request_url_after_setApiUrl None "https://aegis.example/api//" "/scan/pastebin" ∅).
  discriminate.
Defined.



End ApiClientFacts.

(** ** A session across page loads, and the protected route *)
Module SessionFacts.
Import AuthContext ProtectedRoute.

(** X6: a login or registration followed by a page reload restores the
    same token and user, provided the token is not empty and the stored
    user string is not empty and parses back to the user. *)
Theorem login_then_reload_restores_session
    (JSON_parse : string -> Parsed) (JSON_stringify : User -> string)
    (fallback tok mail name : string) (st : AuthState) (ls : gmap string string) :
  tok <> "" ->
  JSON_stringify (mkUser mail name) <> "" ->
  JSON_parse (JSON_stringify (mkUser mail name)) = Value (Some (mkUser mail name)) ->
  let ls' := snd (fst (authenticate JSON_stringify fallback (Ok tok mail name) st ls)) in
  restore JSON_parse initial ls' = (mkAuth (Some (mkUser mail name)) (Some tok) false, ls')
  /\ isAuthenticated (fst (restore JSON_parse initial ls')) = true.
Proof.
  intros Ht Hs Hp. simpl.
  assert (restore JSON_parse initial
            (<[USER_KEY := JSON_stringify (mkUser mail name)]> (<[TOKEN_KEY := tok]> ls))
          = (mkAuth (Some (mkUser mail name)) (Some tok) false,
             <[USER_KEY := JSON_stringify (mkUser mail name)]> (<[TOKEN_KEY := tok]> ls)))
    as E.
  { apply (AuthFacts.restore_parsed_user JSON_parse _ tok
             (JSON_stringify (mkUser mail name))); try assumption.
    - rewrite lookup_insert_ne by discriminate. apply lookup_insert_eq.
    - apply lookup_insert_eq. }
  rewrite E. split; [reflexivity|].
  unfold isAuthenticated. simpl. apply JsFacts.truthy_str_true in Ht. now rewrite Ht.
Qed.

Lemma login_then_reload_restores_session_witness :
  isAuthenticated
    (fst (restore (fun _ => Value (Some (mkUser "asha@example.org" "Asha Rao"))) initial
            (snd (fst (authenticate (fun u => full_name u) "Login failed"
                         (Ok "tok" "asha@example.org" "Asha Rao") initial ∅)))))
  = true.
Proof.
  apply (login_then_reload_restores_session
           (fun _ => Value (Some (mkUser "asha@example.org" "Asha Rao")))
           (fun u => full_name u) "Login failed" "tok" "asha@example.org" "Asha Rao"
           initial ∅).
  - discriminate.
  - discriminate.
  - reflexivity.
Defined.

(** X7: after a logout the protected route redirects to the login page,
    and a page reload finds nothing to restore: token and user stay null
    and the route redirects again, whatever [JSON.parse] would do. *)
Theorem logout_then_reload_redirects
    (JSON_parse : string -> Parsed) (st : AuthState) (ls : gmap string string) :
  isLoading st = false ->
  ProtectedRoute (fst (logout st ls)) = NavigateToLogin
  /\ restore JSON_parse initial (snd (logout st ls))
     = (mkAuth None None false, snd (logout st ls))
  /\ ProtectedRoute (fst (restore JSON_parse initial (snd (logout st ls))))
     = NavigateToLogin.
Proof.
  intros Hl.
  assert (restore JSON_parse initial (snd (logout st ls))
          = (mkAuth None None false, snd (logout st ls))) as E.
  { apply AuthFacts.restore_without_stored_pair. simpl.
    rewrite lookup_delete_ne by discriminate. now rewrite lookup_delete_eq. }
  split; [|split].
  - unfold ProtectedRoute. simpl. now rewrite Hl.
  - exact E.
  - rewrite E. reflexivity.
Qed.

Lemma logout_then_reload_redirects_witness :
  ProtectedRoute
    (fst (logout (mkAuth (Some (mkUser "asha@example.org" "Asha Rao")) (Some "tok") false)
            (<[TOKEN_KEY := "tok"]> ∅)))
  = NavigateToLogin.
Proof.
  apply (logout_then_reload_redirects (fun _ => SyntaxError)
           (mkAuth (Some (mkUser "asha@example.org" "Asha Rao")) (Some "tok") false)
           (<[TOKEN_KEY := "tok"]> ∅)).
  reflexivity.
Defined.

(** X8: before the mount effect has run the protected route shows the
    spinner; after it the route never does, and it shows its children
    exactly when the storage held a non-empty token and a non-empty user
    string that parses to a user; in every other case it redirects. *)
Theorem protected_route_after_mount
    (JSON_parse : string -> Parsed) (ls : gmap string string) :
  ProtectedRoute initial = Spinner
  /\ ProtectedRoute (fst (restore JSON_parse initial ls)) <> Spinner
  /\ (ProtectedRoute (fst (restore JSON_parse initial ls)) = Children
      <-> exists tok raw u,
            ls !! TOKEN_KEY = Some tok /\ tok <> "" /\ ls !! USER_KEY = Some raw
            /\ raw <> "" /\ JSON_parse raw = Value (Some u)).
Proof.
  split; [reflexivity|].
  unfold restore, ProtectedRoute, isAuthenticated.
  destruct (ls !! TOKEN_KEY) as [t|] eqn:Et; destruct (ls !! USER_KEY) as [r|] eqn:Er;
    simpl.
  2-4: split; [discriminate|]; split; [discriminate|];
       intros [tok [raw [u [H1 [_ [H3 _]]]]]]; discriminate.
  destruct (Js.truthy_str t) eqn:Ht; destruct (Js.truthy_str r) eqn:Hr; simpl.
  2-4: split; [discriminate|]; split; [discriminate|];
       intros [tok [raw [u [H1 [H2 [H3 [H4 _]]]]]]];
       inversion H1; inversion H3; subst;
       apply JsFacts.truthy_str_true in H2, H4; congruence.
  destruct (JSON_parse r) as [|[u|]] eqn:Ep; simpl; rewrite ?Ht; simpl.
  - split; [discriminate|]. split; [discriminate|].
    intros [tok [raw [u [_ [_ [H3 [_ H5]]]]]]]. inversion H3; subst. congruence.
  - split; [discriminate|]. split; [|reflexivity]. intros _.
    exists t, r, u. apply JsFacts.truthy_str_true in Ht, Hr. auto 10.
  - split; [discriminate|]. split; [discriminate|].
    intros [tok [raw [u [_ [_ [H3 [_ H5]]]]]]]. inversion H3; subst. congruence.
Qed.

Lemma protected_route_after_mount_witness :
  ProtectedRoute
    (fst (restore (fun _ => Value (Some (mkUser "asha@example.org" "Asha Rao"))) initial
            (<[USER_KEY := "stored user"]> (<[TOKEN_KEY := "tok"]> ∅))))
  = Children.
Proof.
  apply (protected_route_after_mount
           (fun _ => Value (Some (mkUser "asha@example.org" "Asha Rao")))
           (<[USER_KEY := "stored user"]> (<[TOKEN_KEY := "tok"]> ∅))).
  exists "tok", "stored user", (mkUser "asha@example.org" "Asha Rao").
  split; [vm_compute; reflexivity|]. split; [discriminate|].
  split; [vm_compute; reflexivity|]. split; [discriminate|reflexivity].
Defined.

End SessionFacts.

(** ** The registration form and the request behind it *)
Module RegisterFlowFacts.
Import Register RegisterFlow.

Lemma navigation_follows_success (st : FormState) (o : RegisterOutcome) (path : string) :
  In (Navigate path) (snd (handleSubmit st o)) ->
  o = Resolved /\ path = "/"
  /\ snd (handleSubmit st o)
     = [RegisterCall (email st) (password st) (fullName st); Navigate "/"]
  /\ error (fst (handleSubmit st o)) = None
  /\ loading (fst (handleSubmit st o)) = false.
Proof.
  unfold handleSubmit.
  destruct (negb (Js.truthy_str (fullName st)) || negb (Js.truthy_str (email st))
            || negb (Js.truthy_str (password st))
            || negb (Js.truthy_str (confirmPassword st))); simpl; [intros []|].
  destruct (Nat.ltb (String.length (password st)) 6); simpl; [intros []|].
  destruct (negb (String.eqb (password st) (confirmPassword st))); simpl; [intros []|].
  destruct o as [|msg]; simpl.
  - intros [H|[H|[]]]; [discriminate H|]. inversion H; subst. auto.
  - intros [H|[]]. discriminate H.
Qed.

(** X9: the form navigates only after a registration that resolved: a
    navigation in the trace means the outcome was a success, the target is
    the home page, it follows the one register call, no error is shown and
    the form is not left loading; and a handler started on a form that is
    not loading never leaves it loading. *)
Theorem handleSubmit_navigates_only_on_success (st : FormState) (o : RegisterOutcome) :
  (forall path, In (Navigate path) (snd (handleSubmit st o)) ->
     o = Resolved /\ path = "/"
     /\ snd (handleSubmit st o)
        = [RegisterCall (email st) (password st) (fullName st); Navigate "/"]
     /\ error (fst (handleSubmit st o)) = None
     /\ loading (fst (handleSubmit st o)) = false)
  /\ (loading st = false -> loading (fst (handleSubmit st o)) = false).
Proof.
  split; [intros path; apply navigation_follows_success|].
  unfold handleSubmit.
  destruct (negb (Js.truthy_str (fullName st)) || negb (Js.truthy_str (email st))
            || negb (Js.truthy_str (password st))
            || negb (Js.truthy_str (confirmPassword st))); simpl; [auto|].
  destruct (Nat.ltb (String.length (password st)) 6); simpl; [auto|].
  destruct (negb (String.eqb (password st) (confirmPassword st))); simpl; [auto|].
  destruct o; reflexivity.
Qed.

Lemma handleSubmit_navigates_only_on_success_witness :
  loading (fst (handleSubmit (mkForm "Asha Rao" "asha@example.org" "abc123" "abc123"
                                false None) (Rejected None))) = false.
Proof.
  apply (handleSubmit_navigates_only_on_success
           (mkForm "Asha Rao" "asha@example.org" "abc123" "abc123" false None)
           (Rejected None)).
  reflexivity.
Defined.

Lemma or_default_nonempty (a : option string) (d : string) :
  d <> "" -> Js.or_default a d <> "".
Proof.
  intros Hd. unfold Js.or_default. destruct a as [s|]; [|exact Hd].
  destruct (Js.truthy_str s) eqn:E; [now apply JsFacts.truthy_str_true | exact Hd].
Qed.

Section WithJSON.
Variable JSON_stringify : AuthContext.User -> string.

(** X10: when the server rejects the registration, whatever the form
    holds, the session and the storage are left as they were, the form
    does not navigate and it shows an error. *)
Theorem rejected_registration_leaves_session_untouched
    (form : FormState) (detail : option string)
    (auth : AuthContext.AuthState) (ls : gmap string string) :
  let '(form', effects, auth', ls') :=
    submit JSON_stringify form (AuthContext.NotOk detail) auth ls in
  auth' = auth /\ ls' = ls
  /\ (forall path, ~ In (Navigate path) effects)
  /\ exists msg, error form' = Some msg /\ msg <> "".
Proof.
  unfold submit. simpl.
  destruct (handleSubmit form
              (Rejected (Some (Js.or_default detail "Registration failed"))))
    as [form' effects] eqn:E.
  assert (forall path, ~ In (Navigate path) effects) as Hnav.
  { intros path Hin.
    pose proof (navigation_follows_success form
                  (Rejected (Some (Js.or_default detail "Registration failed"))) path) as H.
    rewrite E in H. simpl in H. destruct (H Hin) as [Ho _]. discriminate Ho. }
  assert (exists msg, error form' = Some msg /\ msg <> "") as Herr.
  { unfold handleSubmit in E.
    destruct (negb (Js.truthy_str (fullName form)) || negb (Js.truthy_str (email form))
              || negb (Js.truthy_str (password form))
              || negb (Js.truthy_str (confirmPassword form))).
    { inversion E; subst. simpl. eexists. split; [reflexivity|discriminate]. }
    destruct (Nat.ltb (String.length (password form)) 6).
    { inversion E; subst. simpl. eexists. split; [reflexivity|discriminate]. }
    destruct (negb (String.eqb (password form) (confirmPassword form))).
    { inversion E; subst. simpl. eexists. split; [reflexivity|discriminate]. }
    simpl in E. inversion E; subst. simpl. eexists. split; [reflexivity|].
    apply (or_default_nonempty (Some (Js.or_default detail "Registration failed"))
             "Registration failed"). discriminate. }
  destruct (existsb is_register_call effects);
    (split; [reflexivity|]; split; [reflexivity|]; split; [exact Hnav|exact Herr]).
Qed.

(** X11: a valid form and a registration the server accepts end with the
    server's token in the storage and in the session, the user the server
    named as the session's user, one register call with the form's values
    followed by the navigation home, and no error. *)
Theorem accepted_registration_opens_session
    (form : FormState) (tok mail name : string)
    (auth : AuthContext.AuthState) (ls : gmap string string) :
  fullName form <> "" -> email form <> "" -> password form <> "" ->
  6 <= String.length (password form) -> password form = confirmPassword form ->
  let '(form', effects, auth', ls') :=
    submit JSON_stringify form (AuthContext.Ok tok mail name) auth ls in
  effects = [RegisterCall (email form) (password form) (fullName form); Navigate "/"]
  /\ error form' = None /\ loading form' = false
  /\ AuthContext.token auth' = Some tok
  /\ AuthContext.user auth' = Some (AuthContext.mkUser mail name)
  /\ ls' !! AuthContext.TOKEN_KEY = Some tok
  /\ ls' !! AuthContext.USER_KEY = Some (JSON_stringify (AuthContext.mkUser mail name)).
Proof.
  intros H1 H2 H3 H5 H6.
  assert (confirmPassword form <> "") as H4 by congruence.
  unfold submit, handleSubmit. simpl.
  apply JsFacts.truthy_str_true in H1, H2, H3, H4. rewrite H1, H2, H3, H4. simpl.
  apply Nat.ltb_ge in H5. rewrite H5. simpl.
  apply String.eqb_eq in H6. rewrite H6. simpl.
  repeat split.
  - rewrite lookup_insert_ne by discriminate. apply lookup_insert_eq.
  - apply lookup_insert_eq.
Qed.
End WithJSON.

Lemma accepted_registration_opens_session_witness :
  let '(form', effects, auth', ls') :=
    submit (fun u => AuthContext.full_name u)
      (mkForm "Asha Rao" "asha@example.org" "abc123" "abc123" false None)
      (AuthContext.Ok "tok" "asha@example.org" "Asha Rao") AuthContext.initial ∅ in
  effects = [RegisterCall "asha@example.org" "abc123" "Asha Rao"; Navigate "/"]
  /\ error form' = None /\ loading form' = false
  /\ AuthContext.token auth' = Some "tok"
  /\ AuthContext.user auth' = Some (AuthContext.mkUser "asha@example.org" "Asha Rao")
  /\ ls' !! AuthContext.TOKEN_KEY = Some "tok"
  /\ ls' !! AuthContext.USER_KEY = Some "Asha Rao".
Proof.
  apply (accepted_registration_opens_session (fun u => AuthContext.full_name u)
           (mkForm "Asha Rao" "asha@example.org" "abc123" "abc123" false None)
           "tok" "asha@example.org" "Asha Rao" AuthContext.initial ∅);
    simpl; try discriminate; try reflexivity; lia.
Defined.

End RegisterFlowFacts.

(** ** The merged summary *)
Module MergeFacts.
Import Api CombinedTab.
Local Open Scope Q_scope.

Lemma seen_spec (x : string) (seen : list string) :
  existsb (String.eqb x) seen = true <-> In x seen.
Proof.
  rewrite existsb_exists. split.
  - intros [y [Hin Heq]]. apply String.eqb_eq in Heq. now subst.
  - intros Hin. exists x. split; [exact Hin | apply String.eqb_refl].
Qed.

Lemma dedup_In (xs seen : list string) (x : string) :
  In x (dedup seen xs) <-> In x xs /\ ~ In x seen.
Proof.
  revert seen. induction xs as [|y rest IH]; intros seen; simpl; [tauto|].
  destruct (existsb (String.eqb y) seen) eqn:E.
  - apply seen_spec in E. rewrite IH. split.
    + intros [H1 H2]. auto.
    + intros [[->|H1] H2]; [contradiction | auto].
  - assert (~ In y seen) as Hy by (rewrite <- seen_spec; congruence).
    simpl. rewrite IH. simpl. split.
    + intros [->|[H1 H2]]; [auto | split; [auto | tauto]].
    + intros [[->|H1] H2]; [now left|].
      destruct (String.eqb_spec y x) as [->|Hne]; [now left|]. right. tauto.
Qed.

Lemma dedup_NoDup (xs seen : list string) : List.NoDup (dedup seen xs).
Proof.
  revert seen. induction xs as [|y rest IH]; intros seen; simpl; [constructor|].
  destruct (existsb (String.eqb y) seen); [apply IH|].
  constructor; [|apply IH]. rewrite dedup_In. simpl. tauto.
Qed.

(** X12: the types listed by a merged summary are exactly the types of
    either scan's summary, each listed once. *)
Theorem merged_types_are_the_union_without_repeats
    (gh pb : option ESSSummary) (m : ESSSummary) :
  merge_summary gh pb = Some m ->
  List.NoDup (all_types m)
  /\ forall t, In t (all_types m) <-> In t (types_or_empty gh) \/ In t (types_or_empty pb).
Proof.
  intros H.
  assert (all_types m = dedup [] (types_or_empty gh ++ types_or_empty pb)) as E.
  { unfold merge_summary in H. destruct gh, pb; inversion H; reflexivity. }
  rewrite E. split; [apply dedup_NoDup|].
  intros t. rewrite dedup_In, in_app_iff. simpl. tauto.
Qed.

Lemma merged_types_are_the_union_without_repeats_witness :
  List.NoDup (all_types (mkESS 9 (9 / 2) "CRITICAL" "#ff0000" 3 ["AADHAAR"; "IN_PHONE"; "EMAIL_ADDRESS"])).
Proof.
  apply (merged_types_are_the_union_without_repeats
           (ess_summary Examples.gh_example)
           (Some (mkESS 3 3 "LOW" "#00ff00" 1 ["IN_PHONE"; "EMAIL_ADDRESS"]))).
  reflexivity.
Defined.

(** X13: when both scans have a summary, the merged label, colour and
    [max_ess] all come from the same scan, the one with the higher
    [max_ess], GitHub on a tie; an empty label or colour shows as "Unknown"
    or "#888". *)
Theorem merged_label_follows_max_ess (g q : ESSSummary) :
  exists m, merge_summary (Some g) (Some q) = Some m
    /\ ((max_ess q <= max_ess g /\ max_ess m == max_ess g
         /\ label m = Js.or_default (Some (label g)) "Unknown"
         /\ color m = Js.or_default (Some (color g)) "#888")
        \/ (max_ess g < max_ess q /\ max_ess m == max_ess q
            /\ label m = Js.or_default (Some (label q)) "Unknown"
            /\ color m = Js.or_default (Some (color q)) "#888")).
Proof.
  eexists. split; [reflexivity|]. simpl. unfold qmax, str_or. simpl.
  destruct (Qle_bool (max_ess q) (max_ess g)) eqn:E.
  - left. apply Qle_bool_iff in E. split; [exact E|].
    split; [|split; reflexivity].
    destruct (Qle_bool (max_ess g) (max_ess q)) eqn:E'; [|reflexivity].
    apply Qle_bool_iff in E'. lra.
  - right.
    assert (max_ess g < max_ess q) as Hlt.
    { apply Qnot_le_lt. intros H. apply Qle_bool_iff in H. congruence. }
    split; [exact Hlt|]. split; [|split; reflexivity].
    destruct (Qle_bool (max_ess g) (max_ess q)) eqn:E'; [reflexivity|].
    exfalso. assert (max_ess g <= max_ess q) as H by lra.
    apply Qle_bool_iff in H. congruence.
Qed.

(** X14: merged with a scan that has no summary, a summary keeps its
    [max_ess] when that is not negative but has its [avg_ess] halved; a
    Pastebin summary with GitHub missing keeps its label and colour only if
    its [max_ess] is above 0, and shows "Unknown" and "#888" at 0. *)
Theorem merge_with_missing_summary (s : ESSSummary) :
  0 <= max_ess s ->
  (exists m, merge_summary (Some s) None = Some m
     /\ max_ess m == max_ess s /\ avg_ess m == avg_ess s / 2
     /\ label m = Js.or_default (Some (label s)) "Unknown"
     /\ color m = Js.or_default (Some (color s)) "#888")
  /\ (exists m, merge_summary None (Some s) = Some m
        /\ max_ess m == max_ess s /\ avg_ess m == avg_ess s / 2
        /\ (0 < max_ess s ->
              label m = Js.or_default (Some (label s)) "Unknown"
              /\ color m = Js.or_default (Some (color s)) "#888")
        /\ (max_ess s == 0 -> label m = "Unknown" /\ color m = "#888")).
Proof.
  intros Hpos. split.
  - eexists. split; [reflexivity|]. simpl. unfold qmax, str_or. simpl.
    destruct (Qle_bool 0 (max_ess s)) eqn:E.
    + split.
      * destruct (Qle_bool (max_ess s) 0) eqn:E'; [|reflexivity].
        apply Qle_bool_iff in E'. lra.
      * split; [field|]. split; reflexivity.
    + exfalso. apply Qle_bool_iff in Hpos. congruence.
  - eexists. split; [reflexivity|]. simpl. unfold qmax, str_or. simpl.
    split; [|split; [field|split]].
    + destruct (Qle_bool 0 (max_ess s)) eqn:E; [reflexivity|].
      exfalso. apply Qle_bool_iff in Hpos. congruence.
    + intros Hlt. destruct (Qle_bool (max_ess s) 0) eqn:E; [|split; reflexivity].
      apply Qle_bool_iff in E. lra.
    + intros Hz. destruct (Qle_bool (max_ess s) 0) eqn:E; [split; reflexivity|].
      exfalso. assert (max_ess s <= 0) as H by lra. apply Qle_bool_iff in H. congruence.
Qed.

Lemma merge_with_missing_summary_witness :
  exists m, merge_summary None (Some (mkESS 0 0 "INFO" "#00ff00" 1 ["PERSON"])) = Some m
    /\ label m = "Unknown".
Proof.
  destruct (merge_with_missing_summary (mkESS 0 0 "INFO" "#00ff00" 1 ["PERSON"]))
    as [_ [m [H1 [_ [_ [_ H5]]]]]].
  - simpl. lra.
  - exists m. split; [exact H1|]. apply H5. reflexivity.
Defined.

(** X15: merging keeps the scores in range: when each summary that is
    present has [0 <= avg_ess <= max_ess <= 10], so has the merged one,
    and the gauge's bar is between 0 and 100 percent wide. *)
Theorem merge_keeps_scores_in_range (gh pb : option ESSSummary) (m : ESSSummary) :
  (forall g, gh = Some g -> 0 <= avg_ess g /\ avg_ess g <= max_ess g /\ max_ess g <= 10) ->
  (forall q, pb = Some q -> 0 <= avg_ess q /\ avg_ess q <= max_ess q /\ max_ess q <= 10) ->
  merge_summary gh pb = Some m ->
  0 <= avg_ess m /\ avg_ess m <= max_ess m /\ max_ess m <= 10
  /\ 0 <= ESSGauge.pct m /\ ESSGauge.pct m <= 100.
Proof.
  intros Hg Hp H.
  assert (0 <= num_or_zero avg_ess gh /\ num_or_zero avg_ess gh <= num_or_zero max_ess gh
          /\ num_or_zero max_ess gh <= 10) as [G1 [G2 G3]].
  { destruct gh as [g|]; simpl; [now apply Hg | lra]. }
  assert (0 <= num_or_zero avg_ess pb /\ num_or_zero avg_ess pb <= num_or_zero max_ess pb
          /\ num_or_zero max_ess pb <= 10) as [P1 [P2 P3]].
  { destruct pb as [q|]; simpl; [now apply Hp | lra]. }
  assert (max_ess m = qmax (num_or_zero max_ess gh) (num_or_zero max_ess pb)
          /\ avg_ess m = ((num_or_zero avg_ess gh + num_or_zero avg_ess pb) / 2)%Q)
    as [Em Ea].
  { unfold merge_summary in H. destruct gh, pb; inversion H; split; reflexivity. }
  unfold ESSGauge.pct. rewrite Em, Ea. unfold qmax.
  set (a := num_or_zero avg_ess gh) in *. set (b := num_or_zero avg_ess pb) in *.
  set (x := num_or_zero max_ess gh) in *. set (y := num_or_zero max_ess pb) in *.
  assert ((a + b) / 2 == (a + b) * (1 # 2)) as Hhalf by field.
  destruct (Qle_bool x y) eqn:E.
  - apply Qle_bool_iff in E.
    assert (y / 10 * 100 == y * 10) as Hy by field.
    rewrite Hhalf, Hy. repeat split; lra.
  - assert (y < x) as Hlt.
    { apply Qnot_le_lt. intros Hle. apply Qle_bool_iff in Hle. congruence. }
    assert (x / 10 * 100 == x * 10) as Hx by field.
    rewrite Hhalf, Hx. repeat split; lra.
Qed.

Lemma merge_keeps_scores_in_range_witness :
  ESSGauge.pct (mkESS 9 (9 / 2) "CRITICAL" "#ff0000" 3 ["AADHAAR"; "IN_PHONE"; "EMAIL_ADDRESS"])
  <= 100.
Proof.
  apply (merge_keeps_scores_in_range (ess_summary Examples.gh_example)
           (ess_summary Examples.pb_example)
           (mkESS 9 (9 / 2) "CRITICAL" "#ff0000" 3 ["AADHAAR"; "IN_PHONE"; "EMAIL_ADDRESS"])).
  - intros g Hg. inversion Hg; subst. simpl. lra.
  - intros q Hq. inversion Hq; subst. simpl. lra.
  - reflexivity.
Defined.

End MergeFacts.

(** ** The scan tabs *)
Module TabsFacts.
Import Api ApiClient Tabs.

(** X16: the combined scan shows results only when both scans succeed,
    and then the merged response; when either fails the findings of the
    other are dropped and the message of a failed call is shown. Either
    way the tab stops scanning, with exactly one of results and error. *)
Theorem combined_scan_needs_both (gh pb : Settled ScanResponse) (gh_rejects_first : bool) :
  let st := combined_handleScan gh pb gh_rejects_first in
  scanning st = false
  /\ ((exists g p, gh = Fulfilled g /\ pb = Fulfilled p
                   /\ results st = Some (CombinedTab.combine g p) /\ error st = None)
      \/ (results st = None
          /\ exists m, error st = Some m /\ (gh = RejectedWith m \/ pb = RejectedWith m))).
Proof.
  unfold combined_handleScan, all2.
  destruct gh as [g|m1], pb as [p|m2]; simpl.
  - split; [reflexivity|]. left. exists g, p. auto.
  - split; [reflexivity|]. right. split; [reflexivity|]. exists m2. auto.
  - split; [reflexivity|]. right. split; [reflexivity|]. exists m1. auto.
  - split; [reflexivity|]. right. split; [reflexivity|].
    destruct gh_rejects_first; [exists m1 | exists m2]; auto.
Qed.

(** X17: a click on the GitHub scan button makes at most one call; none,
    leaving the tab as it is, while a scan runs or while the input of the
    current mode is empty; otherwise the call of the current mode, never
    with an empty repository or user name, after which the tab has stopped
    scanning and holds exactly one of results and error. *)
Theorem github_click_calls_once (i : GithubInputs) (st : ScanState)
    (answer : Settled ScanResponse) :
  match snd (github_click i st answer) with
  | [] =>
      fst (github_click i st answer) = st
      /\ (scanning st = true
          \/ (mode i = single /\ repo i = "") \/ (mode i = user /\ username i = ""))
  | [c] =>
      scanning st = false /\ c = github_call i
      /\ match c with
         | GithubSingle r b n nlp => mode i = single /\ r = repo i /\ r <> ""
         | GithubUser u n k nlp => mode i = user /\ u = username i /\ u <> ""
                                   /\ k = maxFiles i
         end
      /\ scanning (fst (github_click i st answer)) = false
      /\ (results (fst (github_click i st answer)) = None
          <-> error (fst (github_click i st answer)) <> None)
  | _ => False
  end.
Proof.
  unfold github_click, github_disabled, github_call.
  destruct (scanning st) eqn:Es; simpl; [auto|].
  destruct (mode i) eqn:Em.
  - destruct (Js.truthy_str (repo i)) eqn:Er; simpl.
    + apply JsFacts.truthy_str_true in Er.
      repeat split; auto; destruct answer; simpl; try congruence; try discriminate.
    + apply JsFacts.truthy_str_false in Er. auto.
  - destruct (Js.truthy_str (username i)) eqn:Er; simpl.
    + apply JsFacts.truthy_str_true in Er.
      repeat split; auto; destruct answer; simpl; try congruence; try discriminate.
    + apply JsFacts.truthy_str_false in Er. auto.
Qed.

Lemma github_click_calls_once_witness :
  snd (github_click (mkGithubInputs single "acme/shop" "main" "" 40 5 false)
         (mkScanState false None None) (RejectedWith "API error 500"))
  = [GithubSingle "acme/shop" "main" 40 false].
Proof.
  pose proof (github_click_calls_once (mkGithubInputs single "acme/shop" "main" "" 40 5 false)
                (mkScanState false None None) (RejectedWith "API error 500")) as H.
  destruct (snd (github_click (mkGithubInputs single "acme/shop" "main" "" 40 5 false)
                   (mkScanState false None None) (RejectedWith "API error 500")))
    as [|c [|c' rest]]; [| |destruct H].
  - destruct H as [_ [H|[[_ H]|[H _]]]]; discriminate H.
  - destruct H as [_ [-> _]]. reflexivity.
Defined.

End TabsFacts.

(** ** The report download *)
Module ReportDownloadFacts.
Import Api ReportDownloadButton ReportDownload.

Lemma is_alnum_not_underscore : is_alnum "_"%char = false.
Proof. reflexivity. Qed.

(** X18: the target part of the download's file name has the length of the
    target and holds only ASCII letters, digits and underscores, so no path
    separator and no dot; a target of letters and digits is kept as it is,
    and sanitising twice changes nothing more. *)
Theorem sanitize_keeps_letters_and_digits (target : string) :
  String.length (sanitize target) = String.length target
  /\ all_chars (fun c => is_alnum c || Ascii.eqb c "_") (sanitize target) = true
  /\ (all_chars is_alnum target = true -> sanitize target = target)
  /\ sanitize (sanitize target) = sanitize target.
Proof.
  induction target as [|c rest [IH1 [IH2 [IH3 IH4]]]]; simpl; [auto|].
  split; [now rewrite IH1|]. split; [|split].
  - rewrite IH2. destruct (is_alnum c) eqn:E; simpl; [now rewrite E | reflexivity].
  - intros H. apply andb_true_iff in H as [Hc Hr]. rewrite Hc. now rewrite IH3.
  - rewrite IH4. destruct (is_alnum c) eqn:E; [now rewrite E | reflexivity].
Qed.

Lemma sanitize_keeps_letters_and_digits_witness :
  sanitize "acme42" = "acme42" /\ sanitize "user:../etc" = "user____etc".
Proof.
  split; [|reflexivity].
  destruct (sanitize_keeps_letters_and_digits "acme42") as [_ [_ [H _]]].
  apply H. reflexivity.
Defined.

(** X19: a report is saved only when there are findings, the server
    answered with the HTML and the button was given a target; rendered
    without a target, as the combined tab does, the button still sends the
    request for a list with findings, and always ends in the alert. *)
Theorem download_needs_a_target (p : Props) (answer : ReportAnswer) :
  (forall req name html, download p answer = Saved req name html ->
     p_findings p <> [] /\ answer = Html html /\ handleDownload p = Some req
     /\ exists t, p_target p = Some t /\ name = file_name t (scanType p))
  /\ (p_target p = None -> p_findings p <> [] ->
        exists req, handleDownload p = Some req /\ download p answer = Alerted req)
  /\ (p_findings p = [] -> download p answer = NotStarted).
Proof.
  unfold download, handleDownload.
  destruct (p_findings p) as [|f fs] eqn:Ef.
  - split; [intros req name html H; discriminate H|].
    split; [intros _ H; congruence | reflexivity].
  - split; [|split; [|discriminate]].
    + intros req name html H.
      destruct answer as [| |h]; try discriminate H.
      destruct (p_target p) as [t|]; [|discriminate H].
      inversion H; subst. repeat split; [discriminate|]. exists t. auto.
    + intros Ht _. rewrite Ht. eexists. split; [reflexivity|].
      destruct answer; reflexivity.
Qed.

Lemma download_needs_a_target_witness :
  exists req,
    download (props_of Examples.gh_example None None "http://localhost:8000")
      (Html "<html></html>") = Alerted req.
Proof.
  destruct (download_needs_a_target
              (props_of Examples.gh_example None None "http://localhost:8000")
              (Html "<html></html>")) as [_ [H _]].
  destruct H as [req [_ H]]; [reflexivity | discriminate | exists req; exact H].
Defined.

End ReportDownloadFacts.

(** ** The history page and the dashboard *)
Module HistoryFacts.
Import HistoryPages.

(** X20: a delete that the server confirms removes every record with that
    id and no other, keeping the order; a delete that fails leaves the
    records as they are; either way no delete is left pending, and
    deleting the same id again changes nothing. *)
Theorem handleDelete_removes_exactly_that_id (i : Z) (st : PageState) :
  (forall r, In r (records (handleDelete i true st)) <-> In r (records st) /\ id r <> i)
  /\ records (handleDelete i true st)
     = List.filter (fun r => negb (Z.eqb (id r) i)) (records st)
  /\ records (handleDelete i false st) = records st
  /\ (forall deleted, deleting (handleDelete i deleted st) = None
                      /\ loading (handleDelete i deleted st) = loading st)
  /\ handleDelete i true (handleDelete i true st) = handleDelete i true st.
Proof.
  unfold handleDelete, without. simpl. split; [|split; [|split; [|split]]].
  - intros r. rewrite filter_In, negb_true_iff, Z.eqb_neq. tauto.
  - reflexivity.
  - reflexivity.
  - intros []; split; reflexivity.
  - f_equal. induction (records st) as [|r rs IH]; simpl; [reflexivity|].
    destruct (Z.eqb (id r) i) eqn:E; simpl; [exact IH|]. rewrite E. simpl. now f_equal.
Qed.

Lemma handleDelete_removes_exactly_that_id_witness :
  In (mkItem 2 "pastebin" "pastebin_recent_15" 0 0 "" 15 (1 # 2) None)
     (records (handleDelete 1 true
                 (mkPage [mkItem 1 "github" "acme/shop" 2 (9 # 2) "LOW" 40 (3 # 2) None;
                          mkItem 2 "pastebin" "pastebin_recent_15" 0 0 "" 15 (1 # 2) None]
                    false None))).
Proof.
  apply (handleDelete_removes_exactly_that_id 1
           (mkPage [mkItem 1 "github" "acme/shop" 2 (9 # 2) "LOW" 40 (3 # 2) None;
                    mkItem 2 "pastebin" "pastebin_recent_15" 0 0 "" 15 (1 # 2) None]
              false None)).
  split; [right; left; reflexivity | discriminate].
Defined.

Lemma math_max_upper (xs : list Q) (x y : Q) :
  ((y <= x)%Q \/ In y xs) -> (y <= math_max x xs)%Q.
Proof.
  unfold math_max. revert x. induction xs as [|z xs IH]; intros x; simpl.
  - intros [H|[]]. exact H.
  - intros [H|[H|H]]; apply IH.
    + left. rewrite CombinedFacts.qmax_Qmax. apply Q.max_le_iff. now left.
    + left. subst z. rewrite CombinedFacts.qmax_Qmax. apply Q.le_max_r.
    + now right.
Qed.

Lemma math_max_attained (xs : list Q) (x : Q) :
  math_max x xs = x \/ In (math_max x xs) xs.
Proof.
  unfold math_max. revert x. induction xs as [|z xs IH]; intros x; simpl; [now left|].
  destruct (IH (CombinedTab.qmax x z)) as [H|H]; [|right; now right].
  rewrite H. unfold CombinedTab.qmax. destruct (Qle_bool x z); [right; now left | now left].
Qed.

(** X21: the dashboard's highest score is 0 for an empty history and
    otherwise the [max_ess] of one of the records, not below that of any
    record; the recent scans are the first five records at most. *)
Theorem highestEss_is_the_maximum (history : list ScanHistoryItem) :
  (history = [] -> highestEss history = 0%Q)
  /\ (forall h, In h history -> (max_ess h <= highestEss history)%Q)
  /\ (history <> [] -> exists h, In h history /\ highestEss history = max_ess h)
  /\ length (recentScans history) = Nat.min 5 (length history)
  /\ (exists older, history = recentScans history ++ older).
Proof.
  split; [intros ->; reflexivity|]. split; [|split; [|split]].
  - intros h Hin. unfold highestEss.
    destruct history as [|h0 rest]; [destruct Hin|]. simpl.
    apply math_max_upper. destruct Hin as [->|Hin]; [left; apply Qle_refl|].
    right. now apply in_map.
  - intros Hne. unfold highestEss.
    destruct history as [|h0 rest]; [congruence|]. simpl.
    destruct (math_max_attained (List.map max_ess rest) (max_ess h0)) as [H|H].
    + exists h0. split; [now left | exact H].
    + apply in_map_iff in H as [h [Hh Hin]]. exists h. split; [now right | now symmetry].
  - unfold recentScans. apply length_firstn.
  - exists (skipn 5 history). unfold recentScans. symmetry. apply firstn_skipn.
Qed.

Lemma highestEss_is_the_maximum_witness :
  exists h,
    In h [mkItem 1 "github" "acme/shop" 2 (9 # 2) "LOW" 40 (3 # 2) None;
          mkItem 2 "pastebin" "pastebin_recent_15" 0 0 "" 15 (1 # 2) None]
    /\ highestEss [mkItem 1 "github" "acme/shop" 2 (9 # 2) "LOW" 40 (3 # 2) None;
                   mkItem 2 "pastebin" "pastebin_recent_15" 0 0 "" 15 (1 # 2) None]
       = max_ess h.
Proof.
  apply (highestEss_is_the_maximum
           [mkItem 1 "github" "acme/shop" 2 (9 # 2) "LOW" 40 (3 # 2) None;
            mkItem 2 "pastebin" "pastebin_recent_15" 0 0 "" 15 (1 # 2) None]).
  discriminate.
Defined.

End HistoryFacts.

(** ** The profile map *)
Module ProfileFacts.
Import Profile.

Lemma filter_index_all {A : Type} (keep : nat -> bool) (i : nat) (xs : list A) :
  (forall j, i <= j < i + length xs -> keep j = true) -> filter_index keep i xs = xs.
Proof.
  revert i. induction xs as [|x rest IH]; intros i H; simpl; [reflexivity|].
  rewrite (H i) by (simpl; lia). f_equal. apply IH. intros j Hj. apply H. simpl. lia.
Qed.

Lemma filter_index_app {A : Type} (keep : nat -> bool) (i : nat) (xs ys : list A) :
  filter_index keep i (xs ++ ys)
  = filter_index keep i xs ++ filter_index keep (i + length xs) ys.
Proof.
  revert i. induction xs as [|x rest IH]; intros i; simpl.
  - now rewrite Nat.add_0_r.
  - rewrite IH. replace (S i + length rest) with (i + S (length rest)) by lia.
    destruct (keep i); reflexivity.
Qed.

Lemma filter_index_length {A : Type} (idx i : nat) (xs : list A) :
  i <= idx < i + length xs ->
  S (length (filter_index (fun j => negb (Nat.eqb j idx)) i xs)) = length xs.
Proof.
  revert i. induction xs as [|x rest IH]; intros i H; simpl in *; [lia|].
  destruct (Nat.eqb i idx) eqn:E; simpl.
  - apply Nat.eqb_eq in E. subst. f_equal.
    rewrite filter_index_all; [reflexivity|].
    intros j Hj. apply negb_true_iff, Nat.eqb_neq. lia.
  - apply Nat.eqb_neq in E. f_equal. apply IH. lia.
Qed.

(** X22: removing the entry that was just added gives the entries back;
    removing at an index past the end changes nothing; removing at an
    index of the list shortens it by one. *)
Theorem removeEntry_undoes_addEntry (es : list ProfileEntry) (idx : nat) :
  removeEntry (length es) (addEntry es) = es
  /\ (length es <= idx -> removeEntry idx es = es)
  /\ (idx < length es -> S (length (removeEntry idx es)) = length es).
Proof.
  unfold removeEntry, addEntry. split; [|split].
  - rewrite filter_index_app. simpl. rewrite Nat.eqb_refl. simpl.
    rewrite app_nil_r. apply filter_index_all.
    intros j Hj. apply negb_true_iff, Nat.eqb_neq. lia.
  - intros H. apply filter_index_all.
    intros j Hj. apply negb_true_iff, Nat.eqb_neq. lia.
  - intros H. apply filter_index_length. lia.
Qed.

Lemma removeEntry_undoes_addEntry_witness :
  removeEntry 7 [mkEntry "github" "work" "torvalds"]
  = [mkEntry "github" "work" "torvalds"].
Proof.
  apply (removeEntry_undoes_addEntry [mkEntry "github" "work" "torvalds"] 7).
  simpl. lia.
Defined.

Lemma map_index_nth {A B : Type} (f : A -> nat -> B) (i j : nat) (xs : list A) :
  nth_error (map_index f i xs) j = option_map (fun x => f x (i + j)) (nth_error xs j).
Proof.
  revert i j. induction xs as [|x rest IH]; intros i j; simpl.
  - destruct j; reflexivity.
  - destruct j; simpl; [now rewrite Nat.add_0_r|].
    rewrite IH. replace (S i + j) with (i + S j) by lia. reflexivity.
Qed.

Lemma map_index_length {A B : Type} (f : A -> nat -> B) (i : nat) (xs : list A) :
  length (map_index f i xs) = length xs.
Proof.
  revert i. induction xs as [|x rest IH]; intros i; simpl; [reflexivity|]. now rewrite IH.
Qed.

(** X23: an update keeps the number of entries, gives the entry at the
    index the new value in the named field and leaves its other fields
    and every other entry as they were; past the end it changes nothing. *)
Theorem updateEntry_changes_one_field (es : list ProfileEntry) (idx : nat)
    (field : Field) (val : string) :
  length (updateEntry idx field val es) = length es
  /\ (forall e, nth_error es idx = Some e ->
        exists e', nth_error (updateEntry idx field val es) idx = Some e'
                   /\ get_field e' field = val
                   /\ forall other, other <> field -> get_field e' other = get_field e other)
  /\ (forall j, j <> idx -> nth_error (updateEntry idx field val es) j = nth_error es j)
  /\ (length es <= idx -> updateEntry idx field val es = es).
Proof.
  unfold updateEntry. split; [apply map_index_length|]. split; [|split].
  - intros e He. rewrite map_index_nth, He. simpl. rewrite Nat.eqb_refl.
    eexists. split; [reflexivity|]. split.
    + destruct field; reflexivity.
    + intros other Hne. destruct field, other; try reflexivity; congruence.
  - intros j Hj. rewrite map_index_nth. simpl.
    destruct (nth_error es j); [|reflexivity]. simpl.
    apply Nat.eqb_neq in Hj. now rewrite Hj.
  - intros H. apply nth_error_ext. intros j. rewrite map_index_nth. simpl.
    destruct (nth_error es j) eqn:E; [|reflexivity]. simpl.
    assert (j < length es) as Hj by (apply nth_error_Some; congruence).
    assert (Nat.eqb j idx = false) as -> by (apply Nat.eqb_neq; lia). reflexivity.
Qed.

Lemma updateEntry_changes_one_field_witness :
  exists e',
    nth_error (updateEntry 0 f_value "octocat" [mkEntry "github" "work" "torvalds"]) 0
      = Some e'
    /\ get_field e' f_value = "octocat"
    /\ forall other, other <> f_value ->
         get_field e' other = get_field (mkEntry "github" "work" "torvalds") other.
Proof.
  apply (updateEntry_changes_one_field [mkEntry "github" "work" "torvalds"] 0
           f_value "octocat").
  reflexivity.
Defined.

(** X24: a profile scan sends nothing for an empty profile; otherwise it
    first saves the profile as it is on screen, empty notes left out, and
    requests the scan only once the save has succeeded; a scan request is
    therefore always preceded by the save of a non-empty profile. *)
Theorem profile_scan_saves_first (es : list ProfileEntry) (notes : string)
    (saved : ApiClient.Settled unit) (scanned : ApiClient.Settled nat) (st : ScanPart) :
  let '(st', sent, toast) := handleScan es notes saved scanned st in
  (es = [] -> sent = [] /\ st' = st /\ toast = NoEntries)
  /\ (In PostProfileScan sent ->
        es <> [] /\ (exists v, saved = ApiClient.Fulfilled v)
        /\ sent = [PutProfile (mkProfile es (if Js.truthy_str notes then Some notes else None));
                   PostProfileScan])
  /\ (es <> [] -> scanning st' = false
                  /\ exists rest, sent = PutProfile (profile_of es notes) :: rest)
  /\ (forall m, saved = ApiClient.RejectedWith m ->
        ~ In PostProfileScan sent /\ (es <> [] -> toast = ScanFailed m)).
Proof.
  unfold handleScan, profile_of, Js.or_else. simpl.
  destruct es as [|e rest].
  - split; [auto|]. split; [intros []|]. split; [congruence|].
    intros m _. split; [intros []|congruence].
  - destruct saved as [v|m]; [destruct scanned as [n|m]|]; simpl.
    + split; [discriminate|]. split.
      * intros _. split; [discriminate|]. split; [eauto | reflexivity].
      * split; [intros _; split; [reflexivity | eauto]|]. intros m H. discriminate H.
    + split; [discriminate|]. split.
      * intros _. split; [discriminate|]. split; [eauto | reflexivity].
      * split; [intros _; split; [reflexivity | eauto]|]. intros m' H. discriminate H.
    + split; [discriminate|]. split.
      * intros [H|[]]. discriminate H.
      * split; [intros _; split; [reflexivity | eauto]|].
        intros m' H. inversion H; subst. split; [intros [H'|[]]; discriminate H' | auto].
Qed.

Lemma profile_scan_saves_first_witness :
  let '(st', sent, toast) :=
    handleScan [] "seen on two forums" (ApiClient.Fulfilled tt) (ApiClient.Fulfilled 3)
      (mkScanPart false false None) in
  sent = [] /\ toast = NoEntries.
Proof.
  pose proof (profile_scan_saves_first [] "seen on two forums" (ApiClient.Fulfilled tt)
                (ApiClient.Fulfilled 3) (mkScanPart false false None)) as H.
  simpl in *. destruct H as [H _]. destruct (H eq_refl) as [H1 [_ H3]]. auto.
Defined.

End ProfileFacts.
